(** * Number platform for La Marzocco espresso machines

    A shallow embedding of
    [homeassistant/components/lamarzocco/number.py]: the two descriptor
    tables [ENTITIES] and [KEY_ENTITIES], the three composite pre-brew
    setters, [async_setup_entry] and the two entity wrappers, followed by
    the properties of the integration's specification.

    Conventions of the embedding.
    - A Python number ([float | int], with [bool] a subtype of [int]) is a
      [pyval]; floats are IEEE binary64 values, the kernel's primitive
      floats, so [value * 1000] rounds exactly as the interpreter does.
    - A coroutine is a computation [M A] over the [World]: awaiting it runs
      it to completion.  The world holds the one client object shared by the
      coordinator and every entity, and a log of the observable events (the
      calls made on the vendor client, the state writes of the entities).
    - An exception ends the computation and leaves the world as it is at
      that point.
    - The vendor client's methods are not part of the component; the client
      object carries their behaviour in its [sdk] field, and every property
      that is not about a particular client holds for all of them. *)

From Stdlib Require Import ZArith String Floats DecimalString DecimalZ Lia.
From stdpp Require Import gmap strings list.

Open Scope Z_scope.

(** ** Python values *)

Inductive pyval : Type :=
| VInt (z : Z)
| VFloat (f : float)
| VBool (b : bool).

(** Keys of the dictionaries the module indexes. *)
Inductive LaMarzoccoModel : Type :=
| GS3_AV
| GS3_MP
| OtherModel (name : string).

Inductive PyKey : Type :=
| KStr (s : string)
| KModel (m : LaMarzoccoModel).

Inductive PyExn : Type :=
| KeyError (k : PyKey)
| ValueError
| OverflowError
| SdkFailure (detail : string).

Inductive Outcome (A : Type) : Type :=
| Returned (a : A)
| Raised (e : PyExn).
Arguments Returned {A} a.
Arguments Raised {A} e.

#[global] Instance LaMarzoccoModel_eq_dec : EqDecision LaMarzoccoModel.
Proof. solve_decision. Defined.

(** [str(n)] of an integer, as an f-string interpolates it. *)
Definition py_str (n : Z) : string := NilZero.string_of_int (Z.to_int n).

Definition bool_to_Z (b : bool) : Z := if b then 1 else 0.

(** [float(n)]: the nearest binary64, [OverflowError] beyond the range. *)
Definition py_float_of_int (n : Z) : Outcome float :=
  let f := SF2Prim (binary_normalize prec emax n 0 false) in
  if PrimFloat.is_infinity f then Raised OverflowError else Returned f.

(** The integer part of a finite [m * 2^e], towards zero. *)
Definition trunc_finite (s : bool) (m : positive) (e : Z) : Z :=
  let a := if 0 <=? e then Z.pos m * 2 ^ e else Z.pos m / 2 ^ (- e) in
  if s then - a else a.

(** [int(f)] of a float. *)
Definition float_trunc (f : float) : Outcome Z :=
  match Prim2SF f with
  | S754_zero _ => Returned 0
  | S754_infinity _ => Raised OverflowError
  | S754_nan => Raised ValueError
  | S754_finite s m e => Returned (trunc_finite s m e)
  end.

(** [int(v)]. *)
Definition py_int (v : pyval) : Outcome Z :=
  match v with
  | VInt z => Returned z
  | VBool b => Returned (bool_to_Z b)
  | VFloat f => float_trunc f
  end.

(** [a * b]: exact on integers, a binary64 product as soon as one side is
    a float. *)
Definition py_mul (a b : pyval) : Outcome pyval :=
  let as_int v := match v with
                  | VInt z => Some z
                  | VBool c => Some (bool_to_Z c)
                  | VFloat _ => None
                  end in
  let as_float v := match v with
                    | VFloat f => Returned f
                    | VInt z => py_float_of_int z
                    | VBool c => py_float_of_int (bool_to_Z c)
                    end in
  match as_int a, as_int b with
  | Some x, Some y => Returned (VInt (x * y))
  | _, _ =>
      match as_float a with
      | Raised e => Raised e
      | Returned x =>
          match as_float b with
          | Raised e => Raised e
          | Returned y => Returned (VFloat (x * y)%float)
          end
      end
  end.

(** [int(v * 1000)], the seconds-to-milliseconds conversion of the
    composite setters. *)
Definition to_millis (v : pyval) : Outcome Z :=
  match py_mul v (VInt 1000) with
  | Raised e => Raised e
  | Returned p => py_int p
  end.



(** [range(a, b)]. *)
Definition py_range (a b : Z) : list Z := seqZ a (b - a).

(** ** The vendor client and the world *)

(** The calls the component makes on the client, with the arguments it
    passes.  [configure_prebrew] takes its times by keyword; a keyword that
    is not passed is [None]. *)
Inductive SdkCall : Type :=
| set_coffee_temp (temp : pyval)
| set_steam_temp (temp : Z)
| set_dose_hot_water (value : Z)
| configure_prebrew (on_time off_time : option Z) (key : Z)
| set_dose (key : Z) (value : Z).

Record LaMarzoccoClient : Type := {
  model_name : LaMarzoccoModel;
  current_status : gmap string pyval;
  sdk : SdkCall -> gmap string pyval -> Outcome bool * gmap string pyval
}.

Record LaMarzoccoUpdateCoordinator : Type := {
  lm : LaMarzoccoClient
}.

Inductive Event : Type :=
| SdkCalled (c : SdkCall)
| StateWritten (unique_id : string).

Record World : Type := {
  coordinator : LaMarzoccoUpdateCoordinator;
  events : list Event
}.

(** ** Coroutines *)

Definition M (A : Type) : Type := World -> Outcome A * World.

Definition ret {A} (a : A) : M A := fun w => (Returned a, w).

Definition raise {A} (e : PyExn) : M A := fun w => (Raised e, w).

Definition bind {A B} (m : M A) (k : A -> M B) : M B :=
  fun w =>
    match m w with
    | (Returned a, w') => k a w'
    | (Raised e, w') => (Raised e, w')
    end.

Notation "x <~ m ;; k" := (bind m (fun x => k))
  (at level 100, m at next level, right associativity).
Notation "m ;;; k" := (bind m (fun _ => k))
  (at level 100, right associativity).

Definition lift {A} (o : Outcome A) : M A := fun w => (o, w).

(** [d[k]] on a status snapshot. *)
Definition status_get (c : LaMarzoccoClient) (k : string) : Outcome pyval :=
  match current_status c !! k with
  | Some v => Returned v
  | None => Raised (KeyError (KStr k))
  end.

(** [lm.current_status[k]] read inside a coroutine. *)
Definition read_status (k : string) : M pyval :=
  fun w => (status_get (lm (coordinator w)) k, w).

(** [await lm.<method>(...)]: the client runs the call to completion; the
    call is logged, the snapshot is what the client leaves. *)
Definition await_sdk (c : SdkCall) : M bool :=
  fun w =>
    let cl := lm (coordinator w) in
    let '(r, st) := sdk cl c (current_status cl) in
    (r, {| coordinator :=
             {| lm := {| model_name := model_name cl;
                         current_status := st;
                         sdk := sdk cl |} |};
           events := events w ++ [SdkCalled c] |}).

(** [self.async_write_ha_state()] of the entity with the given identity. *)
Definition async_write_ha_state (unique_id : string) : M unit :=
  fun w =>
    (Returned tt,
     {| coordinator := coordinator w;
        events := events w ++ [StateWritten unique_id] |}).

(** ** The composite setters *)

Definition _set_prebrew_on (value : pyval) (key : Z) : M bool :=
  on_time <~ lift (to_millis value) ;;
  toff <~ read_status ("prebrewing_toff_k" +:+ py_str key) ;;
  off_time <~ lift (to_millis toff) ;;
  await_sdk (configure_prebrew (Some on_time) (Some off_time) key).

Definition _set_prebrew_off (value : pyval) (key : Z) : M bool :=
  ton <~ read_status ("prebrewing_ton_k" +:+ py_str key) ;;
  on_time <~ lift (to_millis ton) ;;
  off_time <~ lift (to_millis value) ;;
  await_sdk (configure_prebrew (Some on_time) (Some off_time) key).

Definition _set_preinfusion (value : pyval) (key : Z) : M bool :=
  off_time <~ lift (to_millis value) ;;
  await_sdk (configure_prebrew None (Some off_time) key).

(** ** Entity descriptions *)

Inductive NumberDeviceClass : Type := TEMPERATURE | DURATION.
Inductive Unit : Type := CELSIUS | SECONDS | ticks.
Inductive Precision : Type := PRECISION_TENTHS | PRECISION_WHOLE.
Inductive EntityCategory : Type := CONFIG.

(** The fields the two description classes share; they differ in the types
    [S] and [G] of the setter and of the getter.  [supported_fn] and
    [available_fn] are keywords with a default in the base class: [None]
    is a description that does not pass the keyword. *)
Record NumberDescription (S G : Type) : Type := {
  key : string;
  translation_key : string;
  device_class : option NumberDeviceClass;
  native_unit_of_measurement : Unit;
  native_step : Precision;
  native_min_value : Z;
  native_max_value : Z;
  entity_category : option EntityCategory;
  set_value_fn : S;
  native_value_fn : G;
  available_fn : option (LaMarzoccoClient -> Outcome pyval);
  supported_fn : option (LaMarzoccoUpdateCoordinator -> bool)
}.
Arguments key {S G} _.
Arguments translation_key {S G} _.
Arguments device_class {S G} _.
Arguments native_unit_of_measurement {S G} _.
Arguments native_step {S G} _.
Arguments native_min_value {S G} _.
Arguments native_max_value {S G} _.
Arguments entity_category {S G} _.
Arguments set_value_fn {S G} _.
Arguments native_value_fn {S G} _.
Arguments available_fn {S G} _.
Arguments supported_fn {S G} _.

(** The setter of a plain description receives the coordinator and the
    value, the one of a keyed description the client, the value and the
    key.  Coordinator and client are references to the objects of the
    world, so the coroutine takes no argument for them. *)
Definition LaMarzoccoNumberEntityDescription : Type :=
  NumberDescription (pyval -> M bool) (LaMarzoccoClient -> Outcome pyval).

Definition LaMarzoccoKeyNumberEntityDescription : Type :=
  NumberDescription (pyval -> Z -> M bool)
                    (LaMarzoccoClient -> Z -> Outcome pyval).

(** Modelled from the spec: the base class LaMarzoccoEntityDescription
    (entity.py) that declares [supported_fn] with its default is not among
    the sources.  The spec has the predicate filter an entry out "for
    machine models lacking the feature"; an entry that names no model is
    filtered out for none. *)
Definition default_supported_fn (_ : LaMarzoccoUpdateCoordinator) : bool :=
  true.

(** [description.supported_fn(coordinator)]. *)
Definition supported {S G} (d : NumberDescription S G)
    (c : LaMarzoccoUpdateCoordinator) : bool :=
  match supported_fn d with
  | Some f => f c
  | None => default_supported_fn c
  end.

Definition is_gs3 (c : LaMarzoccoUpdateCoordinator) : bool :=
  bool_decide (model_name (lm c) = GS3_AV)
  || bool_decide (model_name (lm c) = GS3_MP).

Definition coffee_temp_description : LaMarzoccoNumberEntityDescription := {|
  key := "coffee_temp";
  translation_key := "coffee_temp";
  device_class := Some TEMPERATURE;
  native_unit_of_measurement := CELSIUS;
  native_step := PRECISION_TENTHS;
  native_min_value := 85;
  native_max_value := 104;
  entity_category := None;
  set_value_fn := fun temp => await_sdk (set_coffee_temp temp);
  native_value_fn := fun lm => status_get lm "coffee_set_temp";
  available_fn := None;
  supported_fn := None
|}.

Definition steam_temp_description : LaMarzoccoNumberEntityDescription := {|
  key := "steam_temp";
  translation_key := "steam_temp";
  device_class := Some TEMPERATURE;
  native_unit_of_measurement := CELSIUS;
  native_step := PRECISION_WHOLE;
  native_min_value := 126;
  native_max_value := 131;
  entity_category := None;
  set_value_fn := fun temp =>
    t <~ lift (py_int temp) ;; await_sdk (set_steam_temp t);
  native_value_fn := fun lm => status_get lm "steam_set_temp";
  available_fn := None;
  supported_fn := Some is_gs3
|}.

Definition tea_water_duration_description
    : LaMarzoccoNumberEntityDescription := {|
  key := "tea_water_duration";
  translation_key := "tea_water_duration";
  device_class := Some DURATION;
  native_unit_of_measurement := SECONDS;
  native_step := PRECISION_WHOLE;
  native_min_value := 0;
  native_max_value := 30;
  entity_category := None;
  set_value_fn := fun value =>
    v <~ lift (py_int value) ;; await_sdk (set_dose_hot_water v);
  native_value_fn := fun lm => status_get lm "dose_hot_water";
  available_fn := None;
  supported_fn := Some is_gs3
|}.

Definition ENTITIES : list LaMarzoccoNumberEntityDescription :=
  [coffee_temp_description; steam_temp_description;
   tea_water_duration_description].

Definition not_gs3_mp (c : LaMarzoccoUpdateCoordinator) : bool :=
  negb (bool_decide (model_name (lm c) = GS3_MP)).

Definition prebrew_off_description : LaMarzoccoKeyNumberEntityDescription := {|
  key := "prebrew_off";
  translation_key := "prebrew_off";
  device_class := Some DURATION;
  native_unit_of_measurement := SECONDS;
  native_step := PRECISION_TENTHS;
  native_min_value := 1;
  native_max_value := 10;
  entity_category := Some CONFIG;
  set_value_fn := _set_prebrew_off;
  native_value_fn := fun lm key =>
    status_get lm ("prebrewing_ton_k" +:+ py_str key);
  available_fn := Some (fun lm => status_get lm "enable_prebrewing");
  supported_fn := Some not_gs3_mp
|}.

Definition prebrew_on_description : LaMarzoccoKeyNumberEntityDescription := {|
  key := "prebrew_on";
  translation_key := "prebrew_on";
  device_class := Some DURATION;
  native_unit_of_measurement := SECONDS;
  native_step := PRECISION_TENTHS;
  native_min_value := 2;
  native_max_value := 10;
  entity_category := Some CONFIG;
  set_value_fn := _set_prebrew_on;
  native_value_fn := fun lm key =>
    status_get lm ("prebrewing_toff_k" +:+ py_str key);
  available_fn := Some (fun lm => status_get lm "enable_prebrewing");
  supported_fn := Some not_gs3_mp
|}.

Definition preinfusion_off_description
    : LaMarzoccoKeyNumberEntityDescription := {|
  key := "preinfusion_off";
  translation_key := "preinfusion_off";
  device_class := Some DURATION;
  native_unit_of_measurement := SECONDS;
  native_step := PRECISION_TENTHS;
  native_min_value := 2;
  native_max_value := 29;
  entity_category := Some CONFIG;
  set_value_fn := _set_preinfusion;
  native_value_fn := fun lm key =>
    status_get lm ("preinfusion_k" +:+ py_str key);
  available_fn := Some (fun lm => status_get lm "enable_preinfusion");
  supported_fn := Some not_gs3_mp
|}.

Definition dose_description : LaMarzoccoKeyNumberEntityDescription := {|
  key := "dose";
  translation_key := "dose";
  device_class := None;
  native_unit_of_measurement := ticks;
  native_step := PRECISION_WHOLE;
  native_min_value := 0;
  native_max_value := 999;
  entity_category := Some CONFIG;
  set_value_fn := fun ticks key =>
    v <~ lift (py_int ticks) ;; await_sdk (set_dose key v);
  native_value_fn := fun lm key => status_get lm ("dose_k" +:+ py_str key);
  available_fn := None;
  supported_fn := Some (fun c => bool_decide (model_name (lm c) = GS3_AV))
|}.

Definition KEY_ENTITIES : list LaMarzoccoKeyNumberEntityDescription :=
  [prebrew_off_description; prebrew_on_description;
   preinfusion_off_description; dose_description].

(** ** Entities *)

(** The attributes an entity object holds.  The three optional ones
    override, when set, what the host framework derives from the
    description. *)
Record LaMarzoccoEntity (D : Type) : Type := {
  entity_description : D;
  _attr_unique_id : string;
  _attr_translation_key : option string;
  _attr_translation_placeholders : option (list (string * string));
  _attr_entity_registry_enabled_default : option bool
}.
Arguments entity_description {D} _.
Arguments _attr_unique_id {D} _.
Arguments _attr_translation_key {D} _.
Arguments _attr_translation_placeholders {D} _.
Arguments _attr_entity_registry_enabled_default {D} _.

Definition LaMarzoccoNumberEntity : Type :=
  LaMarzoccoEntity LaMarzoccoNumberEntityDescription.

Record LaMarzoccoKeyNumberEntity : Type := {
  key_entity : LaMarzoccoEntity LaMarzoccoKeyNumberEntityDescription;
  pyhsical_key : Z
}.

Inductive NumberEntity : Type :=
| PlainNumber (e : LaMarzoccoNumberEntity)
| KeyNumber (e : LaMarzoccoKeyNumberEntity).

(** Modelled from the spec: the host framework's reading of the enablement
    flag is not among the sources.  The spec has the non-default keys
    "disabled by default until the user opts in"; an entity whose
    constructor leaves the attribute alone is enabled. *)
Definition entity_registry_enabled_default {D} (e : LaMarzoccoEntity D)
    : bool :=
  match _attr_entity_registry_enabled_default e with
  | Some b => b
  | None => true
  end.

(** Modelled from the spec: the host framework's reading of the label is
    not among the sources.  The non-default keys "get a distinguished
    identity and label": the label is the instance attribute when the
    constructor sets it, the description's otherwise. *)
Definition entity_translation_key {S G}
    (e : LaMarzoccoEntity (NumberDescription S G)) : string :=
  match _attr_translation_key e with
  | Some k => k
  | None => translation_key (entity_description e)
  end.

(** [LaMarzoccoNumberEntity.native_value]. *)
Definition native_value (e : LaMarzoccoNumberEntity)
    (c : LaMarzoccoUpdateCoordinator) : Outcome pyval :=
  native_value_fn (entity_description e) (lm c).

(** [LaMarzoccoNumberEntity.async_set_native_value]. *)
Definition async_set_native_value (e : LaMarzoccoNumberEntity)
    (value : pyval) : M unit :=
  set_value_fn (entity_description e) value ;;;
  async_write_ha_state (_attr_unique_id e).

(** [LaMarzoccoKeyNumberEntity.native_value]. *)
Definition key_native_value (e : LaMarzoccoKeyNumberEntity)
    (c : LaMarzoccoUpdateCoordinator) : Outcome pyval :=
  native_value_fn (entity_description (key_entity e)) (lm c) (pyhsical_key e).

(** [LaMarzoccoKeyNumberEntity.async_set_native_value]. *)
Definition key_async_set_native_value (e : LaMarzoccoKeyNumberEntity)
    (value : pyval) : M unit :=
  set_value_fn (entity_description (key_entity e)) value (pyhsical_key e) ;;;
  async_write_ha_state (_attr_unique_id (key_entity e)).

Section Setup.

(** The vendor's table of keys per model ([lmcloud.const]) and the
    identity string the base class gives an entity (entity.py) are not
    among the sources; both are parameters. *)
Variable KEYS_PER_MODEL : LaMarzoccoModel -> option Z.
Variable base_unique_id : LaMarzoccoUpdateCoordinator -> string -> string.

(** Modelled from the spec: the base class LaMarzoccoEntity (entity.py) is
    not among the sources.  Its constructor binds "one descriptor ... to a
    live coordinator reference" and leaves the entity with "an identity
    string and enablement flag": the description is bound, the identity is
    the base identity, and no attribute overrides the description. *)
Definition LaMarzoccoEntity_init {S G}
    (c : LaMarzoccoUpdateCoordinator) (description : NumberDescription S G)
    : LaMarzoccoEntity (NumberDescription S G) := {|
  entity_description := description;
  _attr_unique_id := base_unique_id c (key description);
  _attr_translation_key := None;
  _attr_translation_placeholders := None;
  _attr_entity_registry_enabled_default := None
|}.

(** [LaMarzoccoKeyNumberEntity.__init__]. *)
Definition LaMarzoccoKeyNumberEntity_init
    (c : LaMarzoccoUpdateCoordinator)
    (description : LaMarzoccoKeyNumberEntityDescription)
    (pyhsical_key : Z) : LaMarzoccoKeyNumberEntity :=
  let self := LaMarzoccoEntity_init c description in
  if pyhsical_key =? 0 then
    {| key_entity := self; pyhsical_key := 1 |}
  else
    {| key_entity := {|
         entity_description := entity_description self;
         _attr_unique_id :=
           _attr_unique_id self +:+ "_key" +:+ py_str pyhsical_key;
         _attr_translation_key :=
           Some (translation_key description +:+ "_key");
         _attr_translation_placeholders :=
           Some [("key", py_str pyhsical_key)];
         _attr_entity_registry_enabled_default := Some false
       |};
       pyhsical_key := pyhsical_key |}.

(** One turn of the loop over [KEY_ENTITIES]. *)
Definition extend_with_keys (c : LaMarzoccoUpdateCoordinator)
    (entities : list NumberEntity)
    (description : LaMarzoccoKeyNumberEntityDescription)
    : Outcome (list NumberEntity) :=
  if supported description c then
    match KEYS_PER_MODEL (model_name (lm c)) with
    | None => Raised (KeyError (KModel (model_name (lm c))))
    | Some num_keys =>
        Returned
          (entities ++
           map (fun key =>
                  KeyNumber (LaMarzoccoKeyNumberEntity_init c description key))
               (py_range (Z.min num_keys 1) (num_keys + 1)))
    end
  else Returned entities.

Fixpoint extend_all (c : LaMarzoccoUpdateCoordinator)
    (entities : list NumberEntity)
    (descriptions : list LaMarzoccoKeyNumberEntityDescription)
    : Outcome (list NumberEntity) :=
  match descriptions with
  | [] => Returned entities
  | description :: rest =>
      match extend_with_keys c entities description with
      | Raised e => Raised e
      | Returned entities' => extend_all c entities' rest
      end
  end.

(** [async_setup_entry]: the list handed to [async_add_entities]. *)
Definition async_setup_entry (c : LaMarzoccoUpdateCoordinator)
    : Outcome (list NumberEntity) :=
  let entities :=
    map (fun description => PlainNumber (LaMarzoccoEntity_init c description))
        (filter (fun description => supported description c = true) ENTITIES)
  in
  extend_all c entities KEY_ENTITIES.

End Setup.

(** The keyed entities of a list that belong to the description with the
    given key. *)
Definition keyed_entities_of (k : string) (entities : list NumberEntity)
    : list LaMarzoccoKeyNumberEntity :=
  omap (fun e => match e with
                 | KeyNumber ke =>
                     if bool_decide (key (entity_description (key_entity ke)) = k)
                     then Some ke else None
                 | PlainNumber _ => None
                 end) entities.

(** ** A stub client *)

(** Modelled from the spec: "a stub client that stores what it's told".
    The vendor client is not among the sources.  Each call stores the
    arguments it is given in the snapshot field of that name and returns
    [True]: the two temperatures and the two doses as they come, the
    pre-brew times it was passed (and no other) back in seconds, under
    [prebrewing_ton_k<key>] for [on_time] and [prebrewing_toff_k<key>] for
    [off_time], the fields the composite setters themselves read for
    them. *)
Definition seconds (millis : Z) : pyval :=
  VFloat (SF2Prim (binary_normalize prec emax millis 0 false) / 1000)%float.

Definition store_opt (k : string) (v : option Z) (st : gmap string pyval)
    : gmap string pyval :=
  match v with
  | Some ms => <[k := seconds ms]> st
  | None => st
  end.

Definition stub_sdk (c : SdkCall) (st : gmap string pyval)
    : Outcome bool * gmap string pyval :=
  (Returned true,
   match c with
   | set_coffee_temp temp => <["coffee_set_temp" := temp]> st
   | set_steam_temp temp => <["steam_set_temp" := VInt temp]> st
   | set_dose_hot_water value => <["dose_hot_water" := VInt value]> st
   | configure_prebrew on_time off_time key =>
       store_opt ("prebrewing_toff_k" +:+ py_str key) off_time
         (store_opt ("prebrewing_ton_k" +:+ py_str key) on_time st)
   | set_dose key value => <["dose_k" +:+ py_str key := VInt value]> st
   end).

Definition stub_client (model : LaMarzoccoModel) (st : gmap string pyval)
    : LaMarzoccoClient :=
  {| model_name := model; current_status := st; sdk := stub_sdk |}.

(** A client whose every call is rejected by the device. *)
Definition failing_sdk (c : SdkCall) (st : gmap string pyval)
    : Outcome bool * gmap string pyval :=
  (Raised (SdkFailure "rejected"), st).

Definition start (cl : LaMarzoccoClient) : World :=
  {| coordinator := {| lm := cl |}; events := [] |}.

(** ** Vocabulary of the properties *)

(** A snapshot with the two pre-brew times of key 1. *)
Definition snapshot_k1 : gmap string pyval :=
  <["prebrewing_ton_k1" := VInt 3]> (<["prebrewing_toff_k1" := VFloat 5]> ∅).

(** [z] is [v] with its fractional part dropped: for a float of magnitude
    [num / den], [|z|] is the largest integer not above it, and [z] has the
    sign of the float. *)
Definition truncation_of (v : pyval) (z : Z) : Prop :=
  match v with
  | VInt n => z = n
  | VBool b => z = bool_to_Z b
  | VFloat f =>
      match Prim2SF f with
      | S754_zero _ => z = 0
      | S754_finite s m e =>
          let num := Z.pos m * 2 ^ Z.max e 0 in
          let den := 2 ^ Z.max (- e) 0 in
          Z.abs z * den <= num < (Z.abs z + 1) * den
          /\ (if s then z <= 0 else 0 <= z)
      | _ => False
      end
  end.


(** The two wrappers behind the one interface of the host framework. *)
Definition entity_unique_id (e : NumberEntity) : string :=
  match e with
  | PlainNumber p => _attr_unique_id p
  | KeyNumber k => _attr_unique_id (key_entity k)
  end.

(** The setter call an entity awaits. *)
Definition entity_set_value (e : NumberEntity) (value : pyval) : M bool :=
  match e with
  | PlainNumber p => set_value_fn (entity_description p) value
  | KeyNumber k =>
      set_value_fn (entity_description (key_entity k)) value (pyhsical_key k)
  end.

Definition entity_async_set_native_value (e : NumberEntity) (value : pyval)
    : M unit :=
  match e with
  | PlainNumber p => async_set_native_value p value
  | KeyNumber k => key_async_set_native_value k value
  end.

(** The entity is bound to one of the descriptions of the two tables. *)
Definition described_in_tables (e : NumberEntity) : Prop :=
  match e with
  | PlainNumber p => entity_description p ∈ ENTITIES
  | KeyNumber k => entity_description (key_entity k) ∈ KEY_ENTITIES
  end.

Definition is_sdk_call (ev : Event) : Prop :=
  match ev with
  | SdkCalled _ => True
  | StateWritten _ => False
  end.

(** A coroutine that only appends client calls to the log. *)
Definition calls_only {A} (m : M A) : Prop :=
  forall w, exists evs,
    events (snd (m w)) = events w ++ evs /\ Forall is_sdk_call evs.

(** The entity's availability is what the snapshot holds under [flag]. *)
Definition gated_on {S G} (d : NumberDescription S G) (flag : string)
    : Prop :=
  exists f, available_fn d = Some f /\ forall lm, f lm = status_get lm flag.

(** A client the device rejects, and the coffee-temperature entity of a
    coordinator, with the description's key as its identity. *)
Definition rejecting_client : LaMarzoccoClient :=
  {| model_name := GS3_AV; current_status := ∅; sdk := failing_sdk |}.

Definition coffee_temp_entity (c : LaMarzoccoUpdateCoordinator)
    : NumberEntity :=
  PlainNumber (LaMarzoccoEntity_init (fun _ k => k) c coffee_temp_description).

(** The entities one keyed description contributes to the setup when the
    table gives [n] keys for the model. *)
Definition key_block
    (base_unique_id : LaMarzoccoUpdateCoordinator -> string -> string)
    (c : LaMarzoccoUpdateCoordinator)
    (d : LaMarzoccoKeyNumberEntityDescription) (n : Z) : list NumberEntity :=
  if supported d c then
    map (fun key =>
           KeyNumber (LaMarzoccoKeyNumberEntity_init base_unique_id c d key))
        (py_range (Z.min n 1) (n + 1))
  else [].

(** ** Vocabulary of the further properties *)

(** The value [k / 10] as the host hands it over: the binary64 nearest to
    the decimal with one digit after the point. *)
Definition tenths (k : Z) : pyval :=
  VFloat (SF2Prim (binary_normalize prec emax k 0 false) / 10)%float.

(** The key of the description an entity is bound to. *)
Definition entity_key (e : NumberEntity) : string :=
  match e with
  | PlainNumber p => key (entity_description p)
  | KeyNumber k => key (entity_description (key_entity k))
  end.

(** [entity_description.supported_fn(coordinator)] of an entity. *)
Definition entity_supported (e : NumberEntity)
    (c : LaMarzoccoUpdateCoordinator) : bool :=
  match e with
  | PlainNumber p => supported (entity_description p) c
  | KeyNumber k => supported (entity_description (key_entity k)) c
  end.

(** The [key] argument of a client call that has one. *)
Definition call_key (c : SdkCall) : option Z :=
  match c with
  | configure_prebrew _ _ key => Some key
  | set_dose key _ => Some key
  | _ => None
  end.

(** A setter that, on every world, either raises before it reaches the
    client, leaving the world as it is, or is one awaited client call. *)
Definition single_call (m : M bool) : Prop :=
  forall w, (exists x, m w = (Raised x, w)) \/ (exists c, m w = await_sdk c w).

(** The same, with every call carrying the key [k]. *)
Definition single_call_for_key (k : Z) (m : M bool) : Prop :=
  forall w,
    (exists x, m w = (Raised x, w))
    \/ (exists c, m w = await_sdk c w /\ call_key c = Some k).

(** The keys of all the descriptions. *)
Definition all_keys : list string := map key ENTITIES ++ map key KEY_ENTITIES.

(** An identity built on the key [t]: the base identity [prefix ++ t], or
    that followed by [_key] and the text of a key. *)
Definition tagged (prefix t x : string) : Prop :=
  x = prefix +:+ t \/ exists s, x = (prefix +:+ t) +:+ "_key" +:+ s.

(** A client that reports every failure by returning [False]. *)
Definition refusing_sdk (c : SdkCall) (st : gmap string pyval)
    : Outcome bool * gmap string pyval :=
  (Returned false, st).

Definition refusing_client : LaMarzoccoClient :=
  {| model_name := GS3_AV; current_status := ∅; sdk := refusing_sdk |}.

(** * Properties *)

(** ** Running the setters *)

Lemma await_sdk_events c w :
  events (snd (await_sdk c w)) = events w ++ [SdkCalled c].
Proof.
  unfold await_sdk.
  destruct (sdk (lm (coordinator w)) c (current_status (lm (coordinator w))))
    as [r st].
  reflexivity.
Qed.










(** ** Truncation *)

Lemma trunc_finite_bounds (s : bool) (m : positive) (e : Z) :
  let z := trunc_finite s m e in
  Z.abs z * 2 ^ Z.max (- e) 0 <= Z.pos m * 2 ^ Z.max e 0
    < (Z.abs z + 1) * 2 ^ Z.max (- e) 0
  /\ (if s then z <= 0 else 0 <= z).
Proof.
  cbv zeta. unfold trunc_finite.
  destruct (Z.leb_spec 0 e) as [He|He].
  - rewrite (Z.max_l e 0), (Z.max_r (- e) 0) by lia.
    assert (0 < 2 ^ e) by (apply Z.pow_pos_nonneg; lia).
    change (2 ^ 0) with 1.
    destruct s; split; try lia;
      rewrite ?Z.abs_opp, Z.abs_eq by lia; lia.
  - rewrite (Z.max_r e 0), (Z.max_l (- e) 0) by lia.
    change (2 ^ 0) with 1.
    assert (Hd : 0 < 2 ^ (- e)) by (apply Z.pow_pos_nonneg; lia).
    pose proof (Z.div_pos (Z.pos m) (2 ^ (- e)) ltac:(lia) Hd) as Hq.
    pose proof (Z.mul_div_le (Z.pos m) (2 ^ (- e)) Hd) as Hlo.
    pose proof (Z.mul_succ_div_gt (Z.pos m) (2 ^ (- e)) Hd) as Hhi.
    destruct s; split; try lia;
      rewrite ?Z.abs_opp, Z.abs_eq by lia; lia.
Qed.

Lemma py_int_truncates (v : pyval) (z : Z) :
  py_int v = Returned z -> truncation_of v z.
Proof.
  destruct v as [n|f|b]; simpl; intros H.
  - now inversion H.
  - unfold float_trunc in H.
    destruct (Prim2SF f) as [s0|s0| |s m e]; try discriminate.
    + now inversion H.
    + inversion H. apply trunc_finite_bounds.
  - now inversion H.
Qed.

(** C10.  With [z = int(v)], which drops the fractional part of [v]
    towards zero, the setters of steam_temp, tea_water_duration and dose
    hand [z] to the client, whatever the declared minimum and maximum; the
    setter of coffee_temp hands over [v] itself. *)
Theorem C10_setters_truncate (w : World) (v : pyval) (z key : Z) :
  py_int v = Returned z ->
  truncation_of v z
  /\ set_value_fn steam_temp_description v w = await_sdk (set_steam_temp z) w
  /\ set_value_fn tea_water_duration_description v w
     = await_sdk (set_dose_hot_water z) w
  /\ set_value_fn dose_description v key w = await_sdk (set_dose key z) w
  /\ set_value_fn coffee_temp_description v w
     = await_sdk (set_coffee_temp v) w.
Proof.
  intros H. split; [now apply py_int_truncates|].
  simpl. unfold bind, lift. rewrite H. auto.
Qed.

Lemma C10_setters_truncate_witness :
  events (snd (set_value_fn steam_temp_description (VFloat 200.75)
                 (start (stub_client GS3_AV ∅))))
  = [SdkCalled (set_steam_temp 200)].
Proof.
  destruct (C10_setters_truncate (start (stub_client GS3_AV ∅))
              (VFloat 200.75) 200 1) as (_ & E & _).
  - vm_compute. reflexivity.
  - rewrite E. apply await_sdk_events.
Defined.

(** ** What the setters log *)

Lemma calls_only_lift {A} (o : Outcome A) : calls_only (lift o).
Proof. intros w. exists []. simpl. now rewrite app_nil_r. Qed.

Lemma calls_only_read_status k : calls_only (read_status k).
Proof. intros w. exists []. simpl. now rewrite app_nil_r. Qed.

Lemma calls_only_await_sdk c : calls_only (await_sdk c).
Proof.
  intros w. exists [SdkCalled c]. split; [apply await_sdk_events|].
  repeat constructor.
Qed.

Lemma calls_only_bind {A B} (m : M A) (k : A -> M B) :
  calls_only m -> (forall a, calls_only (k a)) -> calls_only (bind m k).
Proof.
  intros Hm Hk w. unfold bind.
  destruct (Hm w) as (evs & E & F).
  destruct (m w) as [[a|e] w1]; simpl in E.
  - destruct (Hk a w1) as (evs' & E' & F').
    exists (evs ++ evs'). split.
    + now rewrite E', E, app_assoc.
    + now apply Forall_app.
  - exists evs. now split.
Qed.

Create HintDb calls.
#[local] Hint Resolve calls_only_lift calls_only_read_status
  calls_only_await_sdk : calls.
#[local] Hint Extern 2 (calls_only (bind _ _)) =>
  apply calls_only_bind; [|intros ?] : calls.

Lemma calls_only_entity_set_value (e : NumberEntity) (v : pyval) :
  described_in_tables e -> calls_only (entity_set_value e v).
Proof.
  destruct e as [p|k]; simpl; intros H.
  - unfold ENTITIES in H.
    repeat (apply elem_of_cons in H as [->|H]);
      [| | | now apply elem_of_nil in H]; simpl; auto with calls.
  - unfold KEY_ENTITIES in H.
    repeat (apply elem_of_cons in H as [->|H]);
      [| | | | now apply elem_of_nil in H]; simpl;
      unfold _set_prebrew_off, _set_prebrew_on, _set_preinfusion;
      auto 8 with calls.
Qed.

(** ** The wrappers *)

Lemma entity_async_set_native_value_unfold (e : NumberEntity) (v : pyval) :
  entity_async_set_native_value e v
  = bind (entity_set_value e v)
         (fun _ => async_write_ha_state (entity_unique_id e)).
Proof. destruct e; reflexivity. Qed.

(** C8.  For an entity of either table and any value,
    [async_set_native_value] first runs the description's setter to
    completion; when the setter returns, the state write is logged after
    everything the setter logged (client calls only), on the world the
    setter left. *)
Theorem C8_state_written_after_setter (e : NumberEntity) (v : pyval)
    (w : World) :
  described_in_tables e ->
  exists evs,
    events (snd (entity_set_value e v w)) = events w ++ evs
    /\ Forall is_sdk_call evs
    /\ forall b, fst (entity_set_value e v w) = Returned b ->
         entity_async_set_native_value e v w
         = (Returned tt,
            {| coordinator := coordinator (snd (entity_set_value e v w));
               events := events w ++ evs
                         ++ [StateWritten (entity_unique_id e)] |}).
Proof.
  intros Ht.
  destruct (calls_only_entity_set_value e v Ht w) as (evs & E & F).
  exists evs. split; [exact E|]. split; [exact F|].
  intros b Hb. rewrite entity_async_set_native_value_unfold.
  unfold bind. destruct (entity_set_value e v w) as [r w1].
  simpl in *. subst r. unfold async_write_ha_state.
  now rewrite E, app_assoc.
Qed.

Lemma C8_state_written_after_setter_witness :
  exists evs,
    events (snd (entity_set_value
                   (coffee_temp_entity {| lm := stub_client GS3_AV ∅ |})
                   (VFloat 93.5) (start (stub_client GS3_AV ∅))))
    = events (start (stub_client GS3_AV ∅)) ++ evs
    /\ Forall is_sdk_call evs
    /\ forall b,
         fst (entity_set_value
                (coffee_temp_entity {| lm := stub_client GS3_AV ∅ |})
                (VFloat 93.5) (start (stub_client GS3_AV ∅))) = Returned b ->
         entity_async_set_native_value
           (coffee_temp_entity {| lm := stub_client GS3_AV ∅ |})
           (VFloat 93.5) (start (stub_client GS3_AV ∅))
         = (Returned tt,
            {| coordinator :=
                 coordinator
                   (snd (entity_set_value
                           (coffee_temp_entity {| lm := stub_client GS3_AV ∅ |})
                           (VFloat 93.5) (start (stub_client GS3_AV ∅))));
               events := events (start (stub_client GS3_AV ∅)) ++ evs
                         ++ [StateWritten
                               (entity_unique_id
                                  (coffee_temp_entity
                                     {| lm := stub_client GS3_AV ∅ |}))] |}).
Proof.
  apply (C8_state_written_after_setter
           (coffee_temp_entity {| lm := stub_client GS3_AV ∅ |})
           (VFloat 93.5) (start (stub_client GS3_AV ∅))).
  simpl. apply elem_of_cons. now left.
Defined.

(** C9.  When the setter of an entity of either table raises, for instance
    because the client call does, [async_set_native_value] raises the same
    exception, leaves the world as the setter left it, and logs no state
    write. *)
Theorem C9_setter_exception_propagates (e : NumberEntity) (v : pyval)
    (w : World) (x : PyExn) :
  described_in_tables e ->
  fst (entity_set_value e v w) = Raised x ->
  entity_async_set_native_value e v w
    = (Raised x, snd (entity_set_value e v w))
  /\ exists evs,
       events (snd (entity_async_set_native_value e v w)) = events w ++ evs
       /\ Forall is_sdk_call evs.
Proof.
  intros Ht Hx.
  assert (E : entity_async_set_native_value e v w
              = (Raised x, snd (entity_set_value e v w))).
  { rewrite entity_async_set_native_value_unfold. unfold bind.
    destruct (entity_set_value e v w) as [r w1]. simpl in *. now subst r. }
  split; [exact E|]. rewrite E. simpl.
  apply (calls_only_entity_set_value e v Ht w).
Qed.

Lemma await_sdk_raises (c : SdkCall) (w : World) (x : PyExn) :
  fst (sdk (lm (coordinator w)) c (current_status (lm (coordinator w))))
    = Raised x ->
  fst (await_sdk c w) = Raised x.
Proof.
  unfold await_sdk.
  destruct (sdk (lm (coordinator w)) c (current_status (lm (coordinator w))))
    as [r st].
  simpl. auto.
Qed.

Lemma C9_setter_exception_propagates_witness :
  entity_async_set_native_value
    (coffee_temp_entity {| lm := rejecting_client |}) (VFloat 93.5)
    (start rejecting_client)
  = (Raised (SdkFailure "rejected"),
     snd (entity_set_value (coffee_temp_entity {| lm := rejecting_client |})
            (VFloat 93.5) (start rejecting_client)))
  /\ exists evs,
       events (snd (entity_async_set_native_value
                      (coffee_temp_entity {| lm := rejecting_client |})
                      (VFloat 93.5) (start rejecting_client)))
       = events (start rejecting_client) ++ evs
       /\ Forall is_sdk_call evs.
Proof.
  apply (C9_setter_exception_propagates
           (coffee_temp_entity {| lm := rejecting_client |}) (VFloat 93.5)
           (start rejecting_client) (SdkFailure "rejected")).
  - simpl. apply elem_of_cons. now left.
  - reflexivity.
Defined.

(** ** Set, then get, on the stub client *)






(** The pre-brew pair.  The setter of prebrew_on passes its value as
    [on_time] and reads [prebrewing_toff_k<key>] for [off_time]; the getter
    of prebrew_on reads [prebrewing_toff_k<key>] too.  On the stub client
    the value set is found under [prebrewing_ton_k1], which is what the
    getter of prebrew_off reads, and the getter of prebrew_on still
    returns the former off time. *)
Lemma prebrew_on_reads_back_the_paired_time :
  events (snd (set_value_fn prebrew_on_description (VFloat 3.5) 1
                 (start (stub_client GS3_AV snapshot_k1))))
  = [SdkCalled (configure_prebrew (Some 3500) (Some 5000) 1)]
  /\ native_value_fn prebrew_on_description
       (lm (coordinator
              (snd (set_value_fn prebrew_on_description (VFloat 3.5) 1
                      (start (stub_client GS3_AV snapshot_k1))))))
       1
     = Returned (VFloat 5)
  /\ native_value_fn prebrew_off_description
       (lm (coordinator
              (snd (set_value_fn prebrew_on_description (VFloat 3.5) 1
                      (start (stub_client GS3_AV snapshot_k1))))))
       1
     = Returned (VFloat 3.5).
Proof.
  split; [|split]; vm_compute; reflexivity.
Qed.

(** The same for prebrew_off: its setter passes the value as [off_time],
    its getter reads [prebrewing_ton_k<key>]. *)
Lemma prebrew_off_reads_back_the_paired_time :
  events (snd (set_value_fn prebrew_off_description (VFloat 6) 1
                 (start (stub_client GS3_AV snapshot_k1))))
  = [SdkCalled (configure_prebrew (Some 3000) (Some 6000) 1)]
  /\ native_value_fn prebrew_off_description
       (lm (coordinator
              (snd (set_value_fn prebrew_off_description (VFloat 6) 1
                      (start (stub_client GS3_AV snapshot_k1))))))
       1
     = Returned (VFloat 3).
Proof.
  split; vm_compute; reflexivity.
Qed.

(** ** Strings of keys *)

Lemma append_inv_head (s a b : string) : s +:+ a = s +:+ b -> a = b.
Proof. apply String.app_inj. Qed.

Lemma append_empty (s : string) : s +:+ EmptyString = s.
Proof.
  induction s as [|c s IH]; [reflexivity|].
  change (String c (s +:+ EmptyString) = String c s). now rewrite IH.
Qed.

Lemma append_ne_self (s a : string) : a <> EmptyString -> s +:+ a <> s.
Proof.
  intros Ha H. apply Ha.
  apply (append_inv_head s). rewrite append_empty. exact H.
Qed.

Lemma to_int_nonnil (z : Z) :
  Z.to_int z <> Decimal.Pos Decimal.Nil
  /\ Z.to_int z <> Decimal.Neg Decimal.Nil.
Proof.
  destruct z as [|p|p]; simpl; split; try discriminate;
    intros H; inversion H as [H1];
    now apply DecimalPos.Unsigned.to_uint_nonnil in H1.
Qed.

Lemma py_str_inj (a b : Z) : py_str a = py_str b -> a = b.
Proof.
  unfold py_str. intros H.
  destruct (to_int_nonnil a) as [Ha1 Ha2].
  destruct (to_int_nonnil b) as [Hb1 Hb2].
  pose proof (NilZero.isi _ Ha1 Ha2) as Ea.
  pose proof (NilZero.isi _ Hb1 Hb2) as Eb.
  rewrite H in Ea. rewrite Ea in Eb. inversion Eb as [E].
  now apply DecimalZ.to_int_inj.
Qed.

(** ** The entities of a keyed description *)

Section SetupFacts.

Variable KEYS_PER_MODEL : LaMarzoccoModel -> option Z.
Variable base_unique_id : LaMarzoccoUpdateCoordinator -> string -> string.

#[local] Abbreviation key_init := (LaMarzoccoKeyNumberEntity_init base_unique_id).

Lemma key_init_description c d k :
  entity_description (key_entity (key_init c d k)) = d.
Proof.
  unfold LaMarzoccoKeyNumberEntity_init. now destruct (k =? 0).
Qed.

Lemma key_init_pyhsical_key c d k :
  pyhsical_key (key_init c d k) = if k =? 0 then 1 else k.
Proof.
  unfold LaMarzoccoKeyNumberEntity_init. now destruct (k =? 0).
Qed.

#[local] Abbreviation block := (key_block base_unique_id).

Lemma extend_all_blocks c n ds entities :
  KEYS_PER_MODEL (model_name (lm c)) = Some n ->
  extend_all KEYS_PER_MODEL base_unique_id c entities ds
  = Returned (entities ++ concat (map (fun d => block c d n) ds)).
Proof.
  intros Hn. revert entities.
  induction ds as [|d ds IH]; intros entities; simpl.
  - now rewrite app_nil_r.
  - unfold extend_with_keys, key_block.
    destruct (supported d c).
    + rewrite Hn, IH. now rewrite <- app_assoc.
    + now rewrite IH.
Qed.

Lemma keyed_entities_of_app k l1 l2 :
  keyed_entities_of k (l1 ++ l2)
  = keyed_entities_of k l1 ++ keyed_entities_of k l2.
Proof. apply omap_app. Qed.

Lemma keyed_entities_of_plain k {A} (f : A -> LaMarzoccoNumberEntity) l :
  keyed_entities_of k (map (fun x => PlainNumber (f x)) l) = [].
Proof. induction l as [|x l IH]; simpl; auto. Qed.

Lemma keyed_entities_of_block k c d n :
  keyed_entities_of k (block c d n)
  = if supported d c && bool_decide (key d = k)
    then map (key_init c d) (py_range (Z.min n 1) (n + 1))
    else [].
Proof.
  unfold key_block. destruct (supported d c); simpl; [|reflexivity].
  induction (py_range (Z.min n 1) (n + 1)) as [|x l IH]; simpl.
  - now destruct (bool_decide (key d = k)).
  - unfold keyed_entities_of in *. simpl.
    rewrite key_init_description.
    destruct (bool_decide (key d = k)); simpl; now rewrite IH.
Qed.

Lemma pyhsical_keys_of_range c d n :
  0 <= n ->
  map pyhsical_key (map (key_init c d) (py_range (Z.min n 1) (n + 1)))
  = seqZ 1 (Z.max n 1).
Proof.
  intros Hn. unfold py_range.
  destruct (Z.eq_dec n 0) as [->|Hne].
  - reflexivity.
  - rewrite Z.min_r, Z.max_l by lia.
    replace (n + 1 - 1) with n by lia.
    rewrite map_map.
    rewrite <- (map_id (seqZ 1 n)) at 2.
    apply map_ext_in. intros k Hk.
    apply list_elem_of_In, elem_of_seqZ in Hk.
    rewrite key_init_pyhsical_key.
    destruct (Z.eqb_spec k 0); [lia|reflexivity].
Qed.

Lemma length_of_range c d n :
  length (map (key_init c d) (py_range (Z.min n 1) (n + 1)))
  = Z.to_nat (Z.max n 1).
Proof.
  rewrite length_map. unfold py_range. rewrite length_seqZ. f_equal. lia.
Qed.

Lemma keyed_entities_of_setup c n d :
  KEYS_PER_MODEL (model_name (lm c)) = Some n ->
  d ∈ KEY_ENTITIES ->
  supported d c = true ->
  exists entities,
    async_setup_entry KEYS_PER_MODEL base_unique_id c = Returned entities
    /\ keyed_entities_of (key d) entities
       = map (key_init c d) (py_range (Z.min n 1) (n + 1)).
Proof.
  intros Hn Hd Hs. unfold async_setup_entry.
  rewrite (extend_all_blocks c n) by exact Hn.
  eexists. split; [reflexivity|].
  rewrite keyed_entities_of_app, keyed_entities_of_plain.
  unfold KEY_ENTITIES in *. simpl concat.
  rewrite !keyed_entities_of_app, !keyed_entities_of_block.
  repeat (apply elem_of_cons in Hd as [->|Hd]);
    [| | | | now apply elem_of_nil in Hd];
    rewrite Hs; simpl;
    repeat rewrite andb_false_r; simpl;
    now rewrite ?app_nil_r.
Qed.

End SetupFacts.

(** C4 as the code has it.  For a keyed description that is supported,
    with [n] the entry of KEYS_PER_MODEL for the model, the setup creates
    [max(n, 1)] entities: one where the table has no keys, whose key index
    0 becomes physical key 1, and, for [n >= 1], one for each of the keys
    [1 .. n]. *)
Theorem C4_entities_per_keyed_description
    (KEYS_PER_MODEL : LaMarzoccoModel -> option Z)
    (base_unique_id : LaMarzoccoUpdateCoordinator -> string -> string)
    (c : LaMarzoccoUpdateCoordinator)
    (d : LaMarzoccoKeyNumberEntityDescription) (n : Z) :
  d ∈ KEY_ENTITIES ->
  supported d c = true ->
  KEYS_PER_MODEL (model_name (lm c)) = Some n ->
  exists entities,
    async_setup_entry KEYS_PER_MODEL base_unique_id c = Returned entities
    /\ length (keyed_entities_of (key d) entities) = Z.to_nat (Z.max n 1)
    /\ (0 <= n ->
        map pyhsical_key (keyed_entities_of (key d) entities)
        = seqZ 1 (Z.max n 1)).
Proof.
  intros Hd Hs Hn.
  destruct (keyed_entities_of_setup KEYS_PER_MODEL base_unique_id c n d
              Hn Hd Hs) as (entities & E & K).
  exists entities. split; [exact E|]. rewrite K. split.
  - apply length_of_range.
  - apply pyhsical_keys_of_range.
Qed.

Lemma C4_entities_per_keyed_description_witness :
  exists entities,
    async_setup_entry (fun _ => Some 4) (fun _ k => k)
      {| lm := stub_client GS3_AV ∅ |} = Returned entities
    /\ length (keyed_entities_of "dose" entities) = 4%nat
    /\ (0 <= 4 ->
        map pyhsical_key (keyed_entities_of "dose" entities) = [1; 2; 3; 4]).
Proof.
  apply (C4_entities_per_keyed_description (fun _ => Some 4) (fun _ k => k)
           {| lm := stub_client GS3_AV ∅ |} dose_description 4).
  - unfold KEY_ENTITIES. rewrite !elem_of_cons. tauto.
  - reflexivity.
  - reflexivity.
Defined.

(** C4 as stated fails where the table has no keys for the model: the
    description is supported, the table gives 0, and the setup creates one
    entity for it, of physical key 1. *)
Lemma C4_one_entity_where_the_table_has_zero :
  supported prebrew_off_description
    {| lm := stub_client (OtherModel "Linea Mini") ∅ |} = true
  /\ match async_setup_entry (fun _ => Some 0) (fun _ k => k)
             {| lm := stub_client (OtherModel "Linea Mini") ∅ |} with
     | Returned entities =>
         length (keyed_entities_of "prebrew_off" entities) = 1%nat
         /\ map pyhsical_key (keyed_entities_of "prebrew_off" entities) = [1]
     | Raised _ => False
     end.
Proof.
  split; [reflexivity|]. vm_compute. split; reflexivity.
Qed.

(** C5.  Built for key index 0, the entity is the base entity: same
    identity, same label, enabled, physical key 1.  Built for any other
    key it keeps that key, its identity is the base identity followed by
    [_key<key>], different from the base identity and from the identity
    of every other key, its label is the description's followed by
    [_key] with the key as placeholder, and it is disabled by default. *)
Theorem C5_key_entity_identity
    (base_unique_id : LaMarzoccoUpdateCoordinator -> string -> string)
    (c : LaMarzoccoUpdateCoordinator)
    (d : LaMarzoccoKeyNumberEntityDescription) (k k' : Z) :
  k <> 0 -> k' <> 0 -> k <> k' ->
  let base := LaMarzoccoEntity_init base_unique_id c d in
  let e0 := LaMarzoccoKeyNumberEntity_init base_unique_id c d 0 in
  let e := LaMarzoccoKeyNumberEntity_init base_unique_id c d k in
  let e' := LaMarzoccoKeyNumberEntity_init base_unique_id c d k' in
  (key_entity e0 = base
   /\ pyhsical_key e0 = 1
   /\ entity_translation_key (key_entity e0) = translation_key d
   /\ entity_registry_enabled_default (key_entity e0) = true)
  /\ (pyhsical_key e = k
      /\ _attr_unique_id (key_entity e)
         = _attr_unique_id base +:+ "_key" +:+ py_str k
      /\ _attr_unique_id (key_entity e) <> _attr_unique_id base
      /\ _attr_unique_id (key_entity e) <> _attr_unique_id (key_entity e')
      /\ entity_translation_key (key_entity e) = translation_key d +:+ "_key"
      /\ entity_translation_key (key_entity e) <> translation_key d
      /\ _attr_translation_placeholders (key_entity e)
         = Some [("key", py_str k)]
      /\ entity_registry_enabled_default (key_entity e) = false).
Proof.
  intros Hk Hk' Hne. cbv zeta.
  unfold LaMarzoccoKeyNumberEntity_init.
  apply Z.eqb_neq in Hk as ->. apply Z.eqb_neq in Hk' as ->.
  change (0 =? 0) with true. cbv iota.
  split; [repeat split|].
  unfold entity_translation_key, entity_registry_enabled_default.
  cbn [key_entity pyhsical_key _attr_unique_id _attr_translation_key
       _attr_translation_placeholders _attr_entity_registry_enabled_default
       entity_description LaMarzoccoEntity_init].
  repeat split.
  - apply append_ne_self. discriminate.
  - intros H. apply append_inv_head, append_inv_head, py_str_inj in H.
    contradiction.
  - apply append_ne_self. discriminate.
Qed.

Lemma C5_key_entity_identity_witness :
  _attr_unique_id
    (key_entity
       (LaMarzoccoKeyNumberEntity_init (fun _ k => "LM012345_" +:+ k)
          {| lm := stub_client GS3_AV ∅ |} dose_description 2))
  = "LM012345_dose_key2"
  /\ entity_registry_enabled_default
       (key_entity
          (LaMarzoccoKeyNumberEntity_init (fun _ k => "LM012345_" +:+ k)
             {| lm := stub_client GS3_AV ∅ |} dose_description 2))
     = false.
Proof.
  destruct (C5_key_entity_identity (fun _ k => "LM012345_" +:+ k)
              {| lm := stub_client GS3_AV ∅ |} dose_description 2 3)
    as (_ & _ & Hu & _ & _ & _ & _ & _ & He); [lia | lia | lia |].
  split; [rewrite Hu; reflexivity | exact He].
Defined.

Lemma is_gs3_true (c : LaMarzoccoUpdateCoordinator) :
  is_gs3 c = true
  <-> model_name (lm c) = GS3_AV \/ model_name (lm c) = GS3_MP.
Proof.
  unfold is_gs3. now rewrite orb_true_iff, !bool_decide_eq_true.
Qed.

Lemma not_gs3_mp_true (c : LaMarzoccoUpdateCoordinator) :
  not_gs3_mp c = true <-> model_name (lm c) <> GS3_MP.
Proof.
  unfold not_gs3_mp. now rewrite negb_true_iff, bool_decide_eq_false.
Qed.

(** C6.  A description is supported exactly for the models it names:
    steam_temp and tea_water_duration for GS3_AV and GS3_MP, prebrew_off,
    prebrew_on and preinfusion_off for every model but GS3_MP, dose for
    GS3_AV, coffee_temp for every model. *)
Theorem C6_supported_models (c : LaMarzoccoUpdateCoordinator) :
  (supported steam_temp_description c = true
   <-> model_name (lm c) = GS3_AV \/ model_name (lm c) = GS3_MP)
  /\ (supported tea_water_duration_description c = true
      <-> model_name (lm c) = GS3_AV \/ model_name (lm c) = GS3_MP)
  /\ (supported prebrew_off_description c = true
      <-> model_name (lm c) <> GS3_MP)
  /\ (supported prebrew_on_description c = true
      <-> model_name (lm c) <> GS3_MP)
  /\ (supported preinfusion_off_description c = true
      <-> model_name (lm c) <> GS3_MP)
  /\ (supported dose_description c = true <-> model_name (lm c) = GS3_AV)
  /\ supported coffee_temp_description c = true.
Proof.
  unfold supported.
  cbn [supported_fn steam_temp_description tea_water_duration_description
       prebrew_off_description prebrew_on_description
       preinfusion_off_description dose_description coffee_temp_description].
  repeat split;
    try (apply is_gs3_true || apply not_gs3_mp_true
         || apply bool_decide_eq_true); auto.
Qed.

(** C7 as the code has it.  prebrew_off and prebrew_on are available as
    the snapshot's [enable_prebrewing] says, preinfusion_off as its
    [enable_preinfusion] says; dose passes no availability predicate. *)
Theorem C7_availability_gates :
  gated_on prebrew_off_description "enable_prebrewing"
  /\ gated_on prebrew_on_description "enable_prebrewing"
  /\ gated_on preinfusion_off_description "enable_preinfusion"
  /\ available_fn dose_description = None.
Proof.
  repeat split; eexists; (split; [reflexivity|]); intros cl; reflexivity.
Qed.

(** C7 as stated fails on dose: the entry has no availability predicate,
    so no flag of the snapshot gates it. *)
Lemma C7_dose_is_not_gated :
  ~ (exists flag, gated_on dose_description flag).
Proof.
  intros (flag & f & H & _). discriminate H.
Qed.

(** * Further properties *)

(** ** Seconds to milliseconds *)

(** On integers the conversion is an exact multiplication. *)
Lemma to_millis_int (z : Z) : to_millis (VInt z) = Returned (z * 1000).
Proof. reflexivity. Qed.

(** X1.  On every tenth of a second from 0 to 32.2, which covers the
    declared ranges of prebrew_off, prebrew_on and preinfusion_off with
    their step, [int(value * 1000)] is the exact number of milliseconds,
    a multiple of 100.  The bound is sharp: at 32.3 the truncation gives
    32299. *)
Theorem X1_millis_exact_on_tenths (k : Z) :
  0 <= k <= 322 ->
  to_millis (tenths k) = Returned (100 * k)
  /\ to_millis (tenths 323) = Returned 32299.
Proof.
  intros Hk. split; [|vm_compute; reflexivity].
  assert (H : forallb (fun j => match to_millis (tenths j) with
                                | Returned ms => ms =? 100 * j
                                | Raised _ => false
                                end) (seqZ 0 323) = true)
    by (vm_compute; reflexivity).
  rewrite forallb_forall in H.
  specialize (H k). 
  destruct (to_millis (tenths k)) as [ms|x].
  - f_equal. apply Z.eqb_eq, H, list_elem_of_In, elem_of_seqZ. lia.
  - discriminate H. apply list_elem_of_In, elem_of_seqZ. lia.
Qed.

Lemma X1_millis_exact_on_tenths_witness :
  to_millis (tenths 11) = Returned 1100
  /\ to_millis (tenths 323) = Returned 32299.
Proof. apply (X1_millis_exact_on_tenths 11). lia. Defined.

(** ** Failures before the client is reached *)

(** X2.  [_set_prebrew_off] looks the paired on time up before it converts
    the value: when the snapshot has no [prebrewing_ton_k<key>], it raises
    the [KeyError] of that field whatever the value is, a NaN included,
    calls nothing and leaves the world as it was. *)
Theorem X2_prebrew_off_missing_on_time (w : World) (value : pyval) (key : Z) :
  current_status (lm (coordinator w)) !! ("prebrewing_ton_k" +:+ py_str key)
    = None ->
  _set_prebrew_off value key w
  = (Raised (KeyError (KStr ("prebrewing_ton_k" +:+ py_str key))), w)
  /\ _set_prebrew_off (VFloat nan) key w
     = (Raised (KeyError (KStr ("prebrewing_ton_k" +:+ py_str key))), w).
Proof.
  intros H.
  assert (E : forall v, _set_prebrew_off v key w
                = (Raised (KeyError (KStr ("prebrewing_ton_k" +:+ py_str key))),
                   w)).
  { intros v. unfold _set_prebrew_off, bind, read_status, status_get.
    now rewrite H. }
  split; apply E.
Qed.

Lemma X2_prebrew_off_missing_on_time_witness :
  _set_prebrew_off (VFloat 6) 2 (start (stub_client GS3_AV snapshot_k1))
  = (Raised (KeyError (KStr "prebrewing_ton_k2")),
     start (stub_client GS3_AV snapshot_k1))
  /\ _set_prebrew_off (VFloat nan) 2 (start (stub_client GS3_AV snapshot_k1))
     = (Raised (KeyError (KStr "prebrewing_ton_k2")),
        start (stub_client GS3_AV snapshot_k1)).
Proof.
  apply (X2_prebrew_off_missing_on_time
           (start (stub_client GS3_AV snapshot_k1)) (VFloat 6) 2).
  vm_compute. reflexivity.
Defined.

(** X3.  [_set_prebrew_on] converts the value before it looks the paired
    off time up: when the snapshot has no [prebrewing_toff_k<key>], it
    raises the conversion's exception if the value cannot be converted and
    the [KeyError] of the field otherwise; either way nothing is called
    and the world is left as it was. *)
Theorem X3_prebrew_on_missing_off_time (w : World) (value : pyval) (key : Z) :
  current_status (lm (coordinator w)) !! ("prebrewing_toff_k" +:+ py_str key)
    = None ->
  _set_prebrew_on value key w
  = (match to_millis value with
     | Raised x => Raised x
     | Returned _ =>
         Raised (KeyError (KStr ("prebrewing_toff_k" +:+ py_str key)))
     end, w)
  /\ _set_prebrew_on (VFloat nan) key w = (Raised ValueError, w)
  /\ _set_prebrew_on (VFloat infinity) key w = (Raised OverflowError, w).
Proof.
  intros H.
  assert (E : forall v, _set_prebrew_on v key w
                = (match to_millis v with
                   | Raised x => Raised x
                   | Returned _ =>
                       Raised
                         (KeyError (KStr ("prebrewing_toff_k" +:+ py_str key)))
                   end, w)).
  { intros v. unfold _set_prebrew_on, bind, lift, read_status, status_get.
    destruct (to_millis v); [now rewrite H | reflexivity]. }
  split; [apply E|]. split; rewrite E; reflexivity.
Qed.

Lemma X3_prebrew_on_missing_off_time_witness :
  _set_prebrew_on (VFloat 3.5) 2 (start (stub_client GS3_AV snapshot_k1))
  = (Raised (KeyError (KStr "prebrewing_toff_k2")),
     start (stub_client GS3_AV snapshot_k1)).
Proof.
  destruct (X3_prebrew_on_missing_off_time
              (start (stub_client GS3_AV snapshot_k1)) (VFloat 3.5) 2)
    as (E & _).
  - vm_compute. reflexivity.
  - rewrite E. reflexivity.
Defined.

Lemma py_int_raises (v : pyval) (x : PyExn) :
  py_int v = Raised x ->
  (exists f, v = VFloat f) /\ (x = ValueError \/ x = OverflowError).
Proof.
  destruct v as [z|f|b]; simpl; try discriminate.
  unfold float_trunc. destruct (Prim2SF f); intros H; inversion H; eauto.
Qed.

(** X4.  A value [int()] rejects is a float, and the exception is
    [ValueError] (NaN) or [OverflowError] (an infinity).  The setters of
    steam_temp, tea_water_duration and dose then raise it without calling
    the client and leave the world as it was; the setter of coffee_temp
    does not convert and still hands the value to the client. *)
Theorem X4_unconvertible_value (w : World) (v : pyval) (x : PyExn) (key : Z) :
  py_int v = Raised x ->
  (exists f, v = VFloat f)
  /\ (x = ValueError \/ x = OverflowError)
  /\ set_value_fn steam_temp_description v w = (Raised x, w)
  /\ set_value_fn tea_water_duration_description v w = (Raised x, w)
  /\ set_value_fn dose_description v key w = (Raised x, w)
  /\ events (snd (set_value_fn coffee_temp_description v w))
     = events w ++ [SdkCalled (set_coffee_temp v)].
Proof.
  intros H. destruct (py_int_raises v x H) as [Hf Hx].
  split; [exact Hf|]. split; [exact Hx|].
  simpl. unfold bind, lift. rewrite H.
  repeat split. apply await_sdk_events.
Qed.

Lemma X4_unconvertible_value_witness :
  set_value_fn steam_temp_description (VFloat nan)
    (start (stub_client GS3_AV ∅))
  = (Raised ValueError, start (stub_client GS3_AV ∅)).
Proof.
  destruct (X4_unconvertible_value (start (stub_client GS3_AV ∅))
              (VFloat nan) ValueError 1) as (_ & _ & E & _).
  - reflexivity.
  - exact E.
Defined.

(** ** One client call per set *)

Lemma single_call_await (c : SdkCall) : single_call (await_sdk c).
Proof. intros w. right. now exists c. Qed.

Lemma single_call_for_key_await (k : Z) (c : SdkCall) :
  call_key c = Some k -> single_call_for_key k (await_sdk c).
Proof. intros H w. right. now exists c. Qed.

Lemma single_call_lift {A} (o : Outcome A) (k : A -> M bool) :
  (forall a, single_call (k a)) -> single_call (bind (lift o) k).
Proof.
  intros Hk w. unfold bind, lift. destruct o as [a|x].
  - apply Hk.
  - left. now exists x.
Qed.

Lemma single_call_for_key_lift {A} (key : Z) (o : Outcome A)
    (k : A -> M bool) :
  (forall a, single_call_for_key key (k a)) ->
  single_call_for_key key (bind (lift o) k).
Proof.
  intros Hk w. unfold bind, lift. destruct o as [a|x].
  - apply Hk.
  - left. now exists x.
Qed.

Lemma single_call_for_key_read (key : Z) (f : string) (k : pyval -> M bool) :
  (forall a, single_call_for_key key (k a)) ->
  single_call_for_key key (bind (read_status f) k).
Proof.
  intros Hk w. unfold bind, read_status.
  destruct (status_get (lm (coordinator w)) f) as [a|x].
  - apply Hk.
  - left. now exists x.
Qed.

Lemma single_call_of_key (k : Z) (m : M bool) :
  single_call_for_key k m -> single_call m.
Proof.
  intros H w. destruct (H w) as [L|(c & E & _)]; [now left|].
  right. now exists c.
Qed.

Lemma single_call_for_key_table (d : LaMarzoccoKeyNumberEntityDescription)
    (v : pyval) (k : Z) :
  d ∈ KEY_ENTITIES -> single_call_for_key k (set_value_fn d v k).
Proof.
  intros H. unfold KEY_ENTITIES in H.
  repeat (apply elem_of_cons in H as [->|H]);
    [| | | | now apply elem_of_nil in H]; simpl.
  - apply single_call_for_key_read. intros ton.
    apply single_call_for_key_lift. intros on_time.
    apply single_call_for_key_lift. intros off_time.
    now apply single_call_for_key_await.
  - apply single_call_for_key_lift. intros on_time.
    apply single_call_for_key_read. intros toff.
    apply single_call_for_key_lift. intros off_time.
    now apply single_call_for_key_await.
  - apply single_call_for_key_lift. intros off_time.
    now apply single_call_for_key_await.
  - apply single_call_for_key_lift. intros z.
    now apply single_call_for_key_await.
Qed.

Lemma single_call_entity (e : NumberEntity) (v : pyval) :
  described_in_tables e -> single_call (entity_set_value e v).
Proof.
  destruct e as [p|k]; simpl; intros H.
  - unfold ENTITIES in H.
    repeat (apply elem_of_cons in H as [->|H]);
      [| | | now apply elem_of_nil in H]; simpl.
    + apply single_call_await.
    + apply single_call_lift. intros z. apply single_call_await.
    + apply single_call_lift. intros z. apply single_call_await.
  - apply (single_call_of_key (pyhsical_key k)).
    now apply single_call_for_key_table.
Qed.

(** X5.  Setting a value on an entity of either table reaches the client
    at most once.  Either the setter fails before the call and the world
    is untouched, or the log gains exactly the one call, followed by the
    state write when, and only when, the call returns. *)
Theorem X5_at_most_one_client_call (e : NumberEntity) (v : pyval)
    (w : World) :
  described_in_tables e ->
  (exists x, entity_async_set_native_value e v w = (Raised x, w))
  \/ (exists c x,
        fst (entity_async_set_native_value e v w) = Raised x
        /\ events (snd (entity_async_set_native_value e v w))
           = events w ++ [SdkCalled c])
  \/ (exists c,
        fst (entity_async_set_native_value e v w) = Returned tt
        /\ events (snd (entity_async_set_native_value e v w))
           = events w ++ [SdkCalled c; StateWritten (entity_unique_id e)]).
Proof.
  intros Ht. rewrite entity_async_set_native_value_unfold. unfold bind.
  destruct (single_call_entity e v Ht w) as [(x & E)|(c & E)]; rewrite E.
  - left. now exists x.
  - right. pose proof (await_sdk_events c w) as Hev.
    destruct (await_sdk c w) as [[b|x] w1]; simpl in *.
    + right. exists c. split; [reflexivity|].
      now rewrite Hev, <- app_assoc.
    + left. exists c, x. now split.
Qed.

Lemma X5_at_most_one_client_call_witness :
  (exists x,
     entity_async_set_native_value
       (coffee_temp_entity {| lm := rejecting_client |}) (VFloat 93.5)
       (start rejecting_client)
     = (Raised x, start rejecting_client))
  \/ (exists c x,
        fst (entity_async_set_native_value
               (coffee_temp_entity {| lm := rejecting_client |})
               (VFloat 93.5) (start rejecting_client)) = Raised x
        /\ events (snd (entity_async_set_native_value
                          (coffee_temp_entity {| lm := rejecting_client |})
                          (VFloat 93.5) (start rejecting_client)))
           = events (start rejecting_client) ++ [SdkCalled c])
  \/ (exists c,
        fst (entity_async_set_native_value
               (coffee_temp_entity {| lm := rejecting_client |})
               (VFloat 93.5) (start rejecting_client)) = Returned tt
        /\ events (snd (entity_async_set_native_value
                          (coffee_temp_entity {| lm := rejecting_client |})
                          (VFloat 93.5) (start rejecting_client)))
           = events (start rejecting_client)
             ++ [SdkCalled c;
                 StateWritten
                   (entity_unique_id
                      (coffee_temp_entity {| lm := rejecting_client |}))]).
Proof.
  apply (X5_at_most_one_client_call
           (coffee_temp_entity {| lm := rejecting_client |}) (VFloat 93.5)
           (start rejecting_client)).
  simpl. apply elem_of_cons. now left.
Defined.

(** ** The pre-brew pair *)



(** ** What the setup creates *)

Section SetupResult.

Variable KEYS_PER_MODEL : LaMarzoccoModel -> option Z.
Variable base_unique_id : LaMarzoccoUpdateCoordinator -> string -> string.

#[local] Abbreviation setup := (async_setup_entry KEYS_PER_MODEL base_unique_id).
#[local] Abbreviation plain_init :=
  (@LaMarzoccoEntity_init base_unique_id (pyval -> M bool)
     (LaMarzoccoClient -> Outcome pyval)).
#[local] Abbreviation key_init' :=
  (LaMarzoccoKeyNumberEntity_init base_unique_id).
#[local] Abbreviation block' := (key_block base_unique_id).

Lemma Returned_inj {A} (a b : A) : Returned a = Returned b -> a = b.
Proof. congruence. Qed.

Lemma setup_shape c n :
  KEYS_PER_MODEL (model_name (lm c)) = Some n ->
  setup c
  = Returned
      (map (fun d => PlainNumber (plain_init c d))
           (filter (fun d => supported d c = true) ENTITIES)
       ++ block' c prebrew_off_description n
       ++ block' c prebrew_on_description n
       ++ block' c preinfusion_off_description n
       ++ block' c dose_description n).
Proof.
  intros Hn. unfold async_setup_entry.
  rewrite (extend_all_blocks KEYS_PER_MODEL base_unique_id c n) by exact Hn.
  unfold KEY_ENTITIES. simpl concat. now rewrite app_nil_r.
Qed.

Lemma elem_of_block c d n e :
  e ∈ block' c d n ->
  supported d c = true
  /\ exists k, Z.min n 1 <= k < n + 1 /\ e = KeyNumber (key_init' c d k).
Proof.
  unfold key_block. destruct (supported d c); [|now intros ?%elem_of_nil].
  intros H. split; [reflexivity|].
  apply list_elem_of_In, in_map_iff in H as (k & <- & Hk).
  exists k. split; [|reflexivity].
  apply list_elem_of_In in Hk. unfold py_range in Hk.
  apply elem_of_seqZ in Hk. lia.
Qed.

Lemma elem_of_setup c n entities e :
  KEYS_PER_MODEL (model_name (lm c)) = Some n ->
  setup c = Returned entities ->
  e ∈ entities ->
  (exists d, d ∈ ENTITIES /\ supported d c = true
             /\ e = PlainNumber (plain_init c d))
  \/ (exists d k, d ∈ KEY_ENTITIES /\ supported d c = true
                  /\ Z.min n 1 <= k < n + 1
                  /\ e = KeyNumber (key_init' c d k)).
Proof.
  intros Hn Hs He. pose proof (setup_shape c n Hn) as E.
  rewrite Hs in E. apply Returned_inj in E. rewrite E in He. clear E Hs.
  rewrite !elem_of_app in He.
  destruct He as [He|He].
  - left. apply list_elem_of_In, in_map_iff in He as (d & <- & Hd).
    apply list_elem_of_In, list_elem_of_filter in Hd as [Hsup Hd].
    now exists d.
  - right. unfold KEY_ENTITIES.
    destruct He as [He|[He|[He|He]]];
      apply elem_of_block in He as (Hsup & k & Hk & ->);
      eexists _, k; (split; [|split; [exact Hsup|split; [exact Hk|reflexivity]]]);
      rewrite !elem_of_cons; tauto.
Qed.

End SetupResult.

Lemma keyed_unsupported_on_gs3_mp (c : LaMarzoccoUpdateCoordinator)
    (d : LaMarzoccoKeyNumberEntityDescription) :
  model_name (lm c) = GS3_MP -> d ∈ KEY_ENTITIES -> supported d c = false.
Proof.
  intros Hm H. unfold KEY_ENTITIES in H.
  repeat (apply elem_of_cons in H as [->|H]);
    [| | | | now apply elem_of_nil in H];
    unfold supported; simpl; unfold not_gs3_mp; now rewrite Hm.
Qed.

(** X7.  On a GS3_MP the setup creates the three plain entities, in the
    order of the table, and nothing else; no keyed description is
    supported there, so KEYS_PER_MODEL is never consulted and the setup
    returns even where the table has no entry for the model. *)
Theorem X7_setup_on_gs3_mp
    (KEYS_PER_MODEL : LaMarzoccoModel -> option Z)
    (base_unique_id : LaMarzoccoUpdateCoordinator -> string -> string)
    (c : LaMarzoccoUpdateCoordinator) :
  model_name (lm c) = GS3_MP ->
  async_setup_entry KEYS_PER_MODEL base_unique_id c
  = Returned
      [PlainNumber (LaMarzoccoEntity_init base_unique_id c
                      coffee_temp_description);
       PlainNumber (LaMarzoccoEntity_init base_unique_id c
                      steam_temp_description);
       PlainNumber (LaMarzoccoEntity_init base_unique_id c
                      tea_water_duration_description)].
Proof.
  intros Hm. unfold async_setup_entry, ENTITIES.
  assert (Hg : is_gs3 c = true) by (apply is_gs3_true; now right).
  rewrite !filter_cons_True, filter_nil by (unfold supported; simpl; auto).
  unfold KEY_ENTITIES. cbn [extend_all]. unfold extend_with_keys.
  rewrite !(keyed_unsupported_on_gs3_mp c)
    by (try exact Hm; unfold KEY_ENTITIES; rewrite !elem_of_cons; tauto).
  reflexivity.
Qed.

Lemma X7_setup_on_gs3_mp_witness :
  async_setup_entry (fun _ => None) (fun _ k => k)
    {| lm := stub_client GS3_MP ∅ |}
  = Returned
      [PlainNumber (LaMarzoccoEntity_init (fun _ k => k)
                      {| lm := stub_client GS3_MP ∅ |}
                      coffee_temp_description);
       PlainNumber (LaMarzoccoEntity_init (fun _ k => k)
                      {| lm := stub_client GS3_MP ∅ |}
                      steam_temp_description);
       PlainNumber (LaMarzoccoEntity_init (fun _ k => k)
                      {| lm := stub_client GS3_MP ∅ |}
                      tea_water_duration_description)].
Proof.
  apply (X7_setup_on_gs3_mp (fun _ => None) (fun _ k => k)
           {| lm := stub_client GS3_MP ∅ |}).
  reflexivity.
Defined.

(** X8.  On any other model a keyed description is supported, so the
    setup indexes KEYS_PER_MODEL: where the table has no entry for the
    model, the setup raises the [KeyError] of the model and hands no
    entity over. *)
Theorem X8_setup_without_table_entry
    (KEYS_PER_MODEL : LaMarzoccoModel -> option Z)
    (base_unique_id : LaMarzoccoUpdateCoordinator -> string -> string)
    (c : LaMarzoccoUpdateCoordinator) :
  model_name (lm c) <> GS3_MP ->
  KEYS_PER_MODEL (model_name (lm c)) = None ->
  async_setup_entry KEYS_PER_MODEL base_unique_id c
  = Raised (KeyError (KModel (model_name (lm c)))).
Proof.
  intros Hm Hn. unfold async_setup_entry, KEY_ENTITIES.
  cbn [extend_all]. unfold extend_with_keys at 1.
  replace (supported prebrew_off_description c) with true
    by (symmetry; now apply not_gs3_mp_true).
  now rewrite Hn.
Qed.

Lemma X8_setup_without_table_entry_witness :
  async_setup_entry (fun _ => None) (fun _ k => k)
    {| lm := stub_client (OtherModel "Linea Mini") ∅ |}
  = Raised (KeyError (KModel (OtherModel "Linea Mini"))).
Proof.
  apply (X8_setup_without_table_entry (fun _ => None) (fun _ k => k)
           {| lm := stub_client (OtherModel "Linea Mini") ∅ |}).
  - discriminate.
  - reflexivity.
Defined.

Lemma map_const_replicate {A B} (b : B) (l : list A) :
  map (fun _ => b) l = replicate (length l) b.
Proof. induction l as [|a l IH]; simpl; [|rewrite IH]; reflexivity. Qed.

Lemma entity_key_block
    (base_unique_id : LaMarzoccoUpdateCoordinator -> string -> string)
    (c : LaMarzoccoUpdateCoordinator)
    (d : LaMarzoccoKeyNumberEntityDescription) (n : Z) :
  map entity_key (key_block base_unique_id c d n)
  = if supported d c then replicate (Z.to_nat (Z.max n 1)) (key d) else [].
Proof.
  unfold key_block. destruct (supported d c); [|reflexivity].
  rewrite map_map.
  rewrite (map_ext _ (fun _ => key d))
    by (intros k; simpl; now rewrite key_init_description).
  rewrite map_const_replicate. f_equal.
  unfold py_range. rewrite length_seqZ. f_equal. lia.
Qed.

Lemma plain_filter_gs3 (c : LaMarzoccoUpdateCoordinator) :
  is_gs3 c = true ->
  filter (fun d => supported d c = true) ENTITIES = ENTITIES.
Proof.
  intros H. unfold ENTITIES.
  now rewrite !filter_cons_True, filter_nil by (unfold supported; simpl; auto).
Qed.

Lemma plain_filter_other (c : LaMarzoccoUpdateCoordinator) :
  ~ (model_name (lm c) = GS3_AV \/ model_name (lm c) = GS3_MP) ->
  filter (fun d => supported d c = true) ENTITIES = [coffee_temp_description].
Proof.
  intros H. unfold ENTITIES.
  assert (Hg : is_gs3 c <> true) by (now rewrite is_gs3_true).
  rewrite filter_cons_True by reflexivity.
  now rewrite !filter_cons_False, filter_nil by (unfold supported; simpl; auto).
Qed.

Lemma supported_not_gs3_mp (c : LaMarzoccoUpdateCoordinator) :
  model_name (lm c) <> GS3_MP ->
  supported prebrew_off_description c = true
  /\ supported prebrew_on_description c = true
  /\ supported preinfusion_off_description c = true.
Proof.
  intros H. apply not_gs3_mp_true in H. repeat split; exact H.
Qed.

(** X9.  Where the table gives [n] keys for the model, the setup hands
    over, in this order, the supported plain entities in the order of
    ENTITIES and then, for each supported keyed description in the order of
    KEY_ENTITIES, its [max(n, 1)] entities: [3 + 4 * max(n, 1)] entities
    on a GS3_AV, [1 + 3 * max(n, 1)] on a model that is neither GS3. *)
Theorem X9_setup_order_and_count
    (KEYS_PER_MODEL : LaMarzoccoModel -> option Z)
    (base_unique_id : LaMarzoccoUpdateCoordinator -> string -> string)
    (c : LaMarzoccoUpdateCoordinator) (n : Z) :
  KEYS_PER_MODEL (model_name (lm c)) = Some n ->
  exists entities,
    async_setup_entry KEYS_PER_MODEL base_unique_id c = Returned entities
    /\ map entity_key entities
       = map key (filter (fun d => supported d c = true) ENTITIES)
         ++ concat
              (map (fun d =>
                      if supported d c
                      then replicate (Z.to_nat (Z.max n 1)) (key d)
                      else [])
                   KEY_ENTITIES)
    /\ (model_name (lm c) = GS3_AV ->
        length entities = (3 + 4 * Z.to_nat (Z.max n 1))%nat)
    /\ (forall name, model_name (lm c) = OtherModel name ->
        length entities = (1 + 3 * Z.to_nat (Z.max n 1))%nat).
Proof.
  intros Hn. eexists. split; [apply (setup_shape _ _ c n Hn)|].
  assert (K : map entity_key
                (map (fun d => PlainNumber
                                 (LaMarzoccoEntity_init base_unique_id c d))
                     (filter (fun d => supported d c = true) ENTITIES)
                 ++ key_block base_unique_id c prebrew_off_description n
                 ++ key_block base_unique_id c prebrew_on_description n
                 ++ key_block base_unique_id c preinfusion_off_description n
                 ++ key_block base_unique_id c dose_description n)
              = map key (filter (fun d => supported d c = true) ENTITIES)
                ++ concat
                     (map (fun d =>
                             if supported d c
                             then replicate (Z.to_nat (Z.max n 1)) (key d)
                             else [])
                          KEY_ENTITIES)).
  { rewrite !map_app, !entity_key_block, map_map.
    unfold KEY_ENTITIES. simpl concat. now rewrite app_nil_r. }
  split; [exact K|].
  split; [intros Hm | intros name Hm];
    rewrite <- (length_map entity_key), K.
  - rewrite plain_filter_gs3 by (apply is_gs3_true; now left).
    unfold KEY_ENTITIES. cbn [map concat].
    destruct (supported_not_gs3_mp c) as (S1 & S2 & S3);
      [rewrite Hm; discriminate|]. rewrite S1, S2, S3.
    replace (supported dose_description c) with true
      by (unfold supported; simpl; now rewrite Hm).
    rewrite !length_app, !length_replicate. simpl. lia.
  - rewrite plain_filter_other
      by (intros [H|H]; rewrite Hm in H; discriminate H).
    unfold KEY_ENTITIES. cbn [map concat].
    destruct (supported_not_gs3_mp c) as (S1 & S2 & S3);
      [rewrite Hm; discriminate|]. rewrite S1, S2, S3.
    replace (supported dose_description c) with false
      by (unfold supported; simpl; now rewrite Hm).
    rewrite !length_app, !length_replicate. simpl. lia.
Qed.

Lemma X9_setup_order_and_count_witness :
  exists entities,
    async_setup_entry (fun _ => Some 0) (fun _ k => k)
      {| lm := stub_client (OtherModel "Linea Mini") ∅ |}
    = Returned entities
    /\ map entity_key entities
       = ["coffee_temp"; "prebrew_off"; "prebrew_on"; "preinfusion_off"]
    /\ length entities = 4%nat.
Proof.
  destruct (X9_setup_order_and_count (fun _ => Some 0) (fun _ k => k)
              {| lm := stub_client (OtherModel "Linea Mini") ∅ |} 0)
    as (entities & E & K & _ & L).
  - reflexivity.
  - exists entities. split; [exact E|]. split.
    + rewrite K. reflexivity.
    + apply (L "Linea Mini"). reflexivity.
Defined.

Lemma extend_all_Forall
    (KEYS_PER_MODEL : LaMarzoccoModel -> option Z)
    (base_unique_id : LaMarzoccoUpdateCoordinator -> string -> string)
    (P : NumberEntity -> Prop) (c : LaMarzoccoUpdateCoordinator)
    (ds : list LaMarzoccoKeyNumberEntityDescription)
    (entities entities' : list NumberEntity) :
  (forall d k, d ∈ ds -> supported d c = true ->
     P (KeyNumber (LaMarzoccoKeyNumberEntity_init base_unique_id c d k))) ->
  Forall P entities ->
  extend_all KEYS_PER_MODEL base_unique_id c entities ds = Returned entities' ->
  Forall P entities'.
Proof.
  revert entities. induction ds as [|d ds IH]; intros entities Hd HP; simpl.
  - intros E. apply Returned_inj in E. now subst.
  - unfold extend_with_keys. destruct (supported d c) eqn:Hs.
    + destruct (KEYS_PER_MODEL (model_name (lm c))) as [n|]; [|discriminate].
      apply IH.
      * intros d' k Hd'. apply Hd. now apply list_elem_of_further.
      * apply Forall_app. split; [exact HP|].
        apply Forall_forall. intros e He.
        apply list_elem_of_In, in_map_iff in He as (k & <- & _).
        apply Hd; [apply list_elem_of_here | exact Hs].
    + apply IH; [|exact HP].
      intros d' k Hd'. apply Hd. now apply list_elem_of_further.
Qed.

(** X10.  Whatever the table, every entity the setup hands over is bound
    to a description of ENTITIES or KEY_ENTITIES whose [supported_fn]
    accepts the coordinator: no entity is created for a feature the model
    lacks. *)
Theorem X10_setup_creates_supported_only
    (KEYS_PER_MODEL : LaMarzoccoModel -> option Z)
    (base_unique_id : LaMarzoccoUpdateCoordinator -> string -> string)
    (c : LaMarzoccoUpdateCoordinator) (entities : list NumberEntity)
    (e : NumberEntity) :
  async_setup_entry KEYS_PER_MODEL base_unique_id c = Returned entities ->
  e ∈ entities ->
  described_in_tables e /\ entity_supported e c = true.
Proof.
  intros Hs He. unfold async_setup_entry in Hs.
  apply (extend_all_Forall _ _
           (fun e => described_in_tables e /\ entity_supported e c = true))
    in Hs.
  - rewrite Forall_forall in Hs. now apply Hs.
  - intros d k Hd Hsup. simpl. now rewrite key_init_description.
  - apply Forall_forall. intros x Hx.
    apply list_elem_of_In, in_map_iff in Hx as (d & <- & Hd).
    apply list_elem_of_In, list_elem_of_filter in Hd as [Hsup Hd].
    now split.
Qed.

Lemma X10_setup_creates_supported_only_witness :
  described_in_tables
    (PlainNumber (LaMarzoccoEntity_init (fun _ k => k)
                    {| lm := stub_client GS3_MP ∅ |} steam_temp_description))
  /\ entity_supported
       (PlainNumber (LaMarzoccoEntity_init (fun _ k => k)
                       {| lm := stub_client GS3_MP ∅ |}
                       steam_temp_description))
       {| lm := stub_client GS3_MP ∅ |} = true.
Proof.
  apply (X10_setup_creates_supported_only (fun _ => None) (fun _ k => k)
           {| lm := stub_client GS3_MP ∅ |}
           [PlainNumber (LaMarzoccoEntity_init (fun _ k => k)
                           {| lm := stub_client GS3_MP ∅ |}
                           coffee_temp_description);
            PlainNumber (LaMarzoccoEntity_init (fun _ k => k)
                           {| lm := stub_client GS3_MP ∅ |}
                           steam_temp_description);
            PlainNumber (LaMarzoccoEntity_init (fun _ k => k)
                           {| lm := stub_client GS3_MP ∅ |}
                           tea_water_duration_description)]).
  - reflexivity.
  - rewrite !elem_of_cons. tauto.
Defined.

(** X11.  Where the table gives [n >= 0] keys, every keyed entity of the
    setup has a physical key between 1 and [max(n, 1)], and setting a
    value on it either fails before the client is reached or makes one
    client call that carries this key: the client is never called with
    key 0. *)
Theorem X11_setup_keys_reach_the_client
    (KEYS_PER_MODEL : LaMarzoccoModel -> option Z)
    (base_unique_id : LaMarzoccoUpdateCoordinator -> string -> string)
    (c : LaMarzoccoUpdateCoordinator) (n : Z)
    (entities : list NumberEntity) (ke : LaMarzoccoKeyNumberEntity) :
  KEYS_PER_MODEL (model_name (lm c)) = Some n ->
  0 <= n ->
  async_setup_entry KEYS_PER_MODEL base_unique_id c = Returned entities ->
  KeyNumber ke ∈ entities ->
  1 <= pyhsical_key ke <= Z.max n 1
  /\ forall v, single_call_for_key (pyhsical_key ke)
                 (entity_set_value (KeyNumber ke) v).
Proof.
  intros Hn Hpos Hs He.
  destruct (elem_of_setup _ _ c n entities _ Hn Hs He)
    as [(d & _ & _ & E)|(d & k & Hd & _ & Hk & E)]; [discriminate E|].
  injection E as ->. split.
  - rewrite key_init_pyhsical_key. destruct (Z.eqb_spec k 0); lia.
  - intros v. simpl. rewrite key_init_description.
    now apply single_call_for_key_table.
Qed.

Lemma X11_setup_keys_reach_the_client_witness :
  1 <= pyhsical_key
         (LaMarzoccoKeyNumberEntity_init (fun _ k => k)
            {| lm := stub_client (OtherModel "Linea Mini") ∅ |}
            prebrew_on_description 0) <= Z.max 0 1
  /\ forall v,
       single_call_for_key
         (pyhsical_key
            (LaMarzoccoKeyNumberEntity_init (fun _ k => k)
               {| lm := stub_client (OtherModel "Linea Mini") ∅ |}
               prebrew_on_description 0))
         (entity_set_value
            (KeyNumber
               (LaMarzoccoKeyNumberEntity_init (fun _ k => k)
                  {| lm := stub_client (OtherModel "Linea Mini") ∅ |}
                  prebrew_on_description 0)) v).
Proof.
  eapply (X11_setup_keys_reach_the_client (fun _ => Some 0) (fun _ k => k)
            {| lm := stub_client (OtherModel "Linea Mini") ∅ |} 0).
  - reflexivity.
  - lia.
  - apply (setup_shape (fun _ => Some 0) (fun _ k => k)
             {| lm := stub_client (OtherModel "Linea Mini") ∅ |} 0).
    reflexivity.
  - rewrite !elem_of_app. right. right. left.
    apply elem_of_cons. now left.
Defined.

(** X12.  Enablement after the setup.  Where the table gives 0 keys, the
    one entity of a keyed description is the base entity under physical
    key 1: nothing overrides its identity, its label or its enablement.
    Where the table gives [n >= 1] keys, every keyed entity, the one of
    physical key 1 included, is disabled by default and carries the
    [_key<key>] identity and the [_key] label. *)
Theorem X12_setup_enablement
    (KEYS_PER_MODEL : LaMarzoccoModel -> option Z)
    (base_unique_id : LaMarzoccoUpdateCoordinator -> string -> string)
    (c : LaMarzoccoUpdateCoordinator) (n : Z)
    (entities : list NumberEntity) (ke : LaMarzoccoKeyNumberEntity) :
  KEYS_PER_MODEL (model_name (lm c)) = Some n ->
  0 <= n ->
  async_setup_entry KEYS_PER_MODEL base_unique_id c = Returned entities ->
  KeyNumber ke ∈ entities ->
  (n = 0 ->
   pyhsical_key ke = 1
   /\ key_entity ke
      = LaMarzoccoEntity_init base_unique_id c
          (entity_description (key_entity ke)))
  /\ (1 <= n ->
      _attr_entity_registry_enabled_default (key_entity ke) = Some false
      /\ _attr_unique_id (key_entity ke)
         = base_unique_id c (key (entity_description (key_entity ke)))
           +:+ "_key" +:+ py_str (pyhsical_key ke)
      /\ _attr_translation_key (key_entity ke)
         = Some (translation_key (entity_description (key_entity ke))
                 +:+ "_key")).
Proof.
  intros Hn Hpos Hs He.
  destruct (elem_of_setup _ _ c n entities _ Hn Hs He)
    as [(d & _ & _ & E)|(d & k & Hd & _ & Hk & E)]; [discriminate E|].
  injection E as ->. split; intros Hcase.
  - assert (k = 0) as -> by lia. split; reflexivity.
  - unfold LaMarzoccoKeyNumberEntity_init.
    destruct (Z.eqb_spec k 0) as [->|Hk0]; [lia|].
    repeat split.
Qed.

Lemma X12_setup_enablement_witness :
  _attr_entity_registry_enabled_default
    (key_entity
       (LaMarzoccoKeyNumberEntity_init (fun _ k => k)
          {| lm := stub_client GS3_AV ∅ |} prebrew_off_description 1))
  = Some false.
Proof.
  eapply (X12_setup_enablement (fun _ => Some 4) (fun _ k => k)
            {| lm := stub_client GS3_AV ∅ |} 4).
  - reflexivity.
  - lia.
  - apply (setup_shape (fun _ => Some 4) (fun _ k => k)
             {| lm := stub_client GS3_AV ∅ |} 4).
    reflexivity.
  - rewrite !elem_of_app. right. left.
    apply elem_of_cons. now left.
  - lia.
Defined.

(** ** Identities *)

Lemma append_assoc (a b c : string) : (a +:+ b) +:+ c = a +:+ (b +:+ c).
Proof.
  induction a as [|x a IH]; [reflexivity|].
  change (String x ((a +:+ b) +:+ c) = String x (a +:+ (b +:+ c))).
  now rewrite IH.
Qed.

Lemma tagged_disjoint (prefix t1 t2 x : string) :
  t1 ∈ all_keys -> t2 ∈ all_keys -> t1 <> t2 ->
  tagged prefix t1 x -> tagged prefix t2 x -> False.
Proof.
  intros H1 H2 Hne T1 T2.
  assert (E : t1 = t2
              \/ (exists s, t1 = t2 +:+ "_key" +:+ s)
              \/ (exists s, t1 +:+ "_key" +:+ s = t2)
              \/ (exists s s', t1 +:+ "_key" +:+ s = t2 +:+ "_key" +:+ s')).
  { destruct T1 as [->|(s & ->)], T2 as [E|(s' & E)];
      rewrite ?append_assoc in E; apply append_inv_head in E; eauto 6. }
  cbv in H1, H2.
  repeat (apply elem_of_cons in H1 as [->|H1]);
    [| | | | | | | now apply elem_of_nil in H1];
    repeat (apply elem_of_cons in H2 as [->|H2]);
    try (now apply elem_of_nil in H2);
    try (now apply Hne);
    destruct E as [E|[(s & E)|[(s & E)|(s & s' & E)]]]; discriminate E.
Qed.

Lemma NoDup_concat_tagged (prefix : string)
    (tl : list (string * list string)) :
  (forall t L, (t, L) ∈ tl ->
     t ∈ all_keys /\ NoDup L /\ Forall (tagged prefix t) L) ->
  NoDup (map fst tl) ->
  NoDup (concat (map snd tl)).
Proof.
  induction tl as [|[t L] tl IH]; intros Hall Hnd; simpl.
  - constructor.
  - destruct (Hall t L (list_elem_of_here _ _)) as (Ht & HL & HT).
    simpl in Hnd. apply NoDup_cons in Hnd as [Hnotin Hnd].
    apply NoDup_app. split; [exact HL|]. split.
    + intros x Hx Hin.
      apply list_elem_of_In, in_concat in Hin as (L' & HL' & Hx').
      apply in_map_iff in HL' as ([t' L''] & <- & Hp). simpl in Hx'.
      apply list_elem_of_In in Hp.
      destruct (Hall t' L'' (list_elem_of_further _ _ _ Hp))
        as (Ht' & _ & HT').
      rewrite Forall_forall in HT, HT'.
      apply (tagged_disjoint prefix t t' x Ht Ht').
      * intros ->. apply Hnotin.
        apply list_elem_of_In, in_map_iff. exists (t', L'').
        split; [reflexivity | now apply list_elem_of_In].
      * now apply HT.
      * apply HT'. now apply list_elem_of_In.
    + apply IH; [|exact Hnd].
      intros t' L' Hp. apply Hall. now apply list_elem_of_further.
Qed.

Lemma map_filter_supported {S G B} (c : LaMarzoccoUpdateCoordinator)
    (g : NumberDescription S G -> B) (l : list (NumberDescription S G)) :
  map g (filter (fun d => supported d c = true) l)
  = concat (map (fun d => if supported d c then [g d] else []) l).
Proof.
  induction l as [|d l IH]; [reflexivity|].
  rewrite filter_cons. simpl.
  destruct (decide (supported d c = true)) as [E|E].
  - rewrite E. simpl. now rewrite IH.
  - apply not_true_is_false in E. now rewrite E.
Qed.

Section Identities.

Variable KEYS_PER_MODEL : LaMarzoccoModel -> option Z.
Variable base_unique_id : LaMarzoccoUpdateCoordinator -> string -> string.
Variable c : LaMarzoccoUpdateCoordinator.
Variable prefix : string.
Hypothesis base_format : forall k, base_unique_id c k = prefix +:+ k.

Lemma key_init_unique_id d k :
  _attr_unique_id
    (key_entity (LaMarzoccoKeyNumberEntity_init base_unique_id c d k))
  = if k =? 0 then prefix +:+ key d
    else (prefix +:+ key d) +:+ "_key" +:+ py_str k.
Proof.
  unfold LaMarzoccoKeyNumberEntity_init.
  destruct (k =? 0); simpl; now rewrite base_format.
Qed.

Lemma block_ids d n :
  0 <= n ->
  NoDup (map entity_unique_id (key_block base_unique_id c d n))
  /\ Forall (tagged prefix (key d))
       (map entity_unique_id (key_block base_unique_id c d n)).
Proof.
  intros Hn. unfold key_block.
  destruct (supported d c); [|split; constructor].
  rewrite map_map. split.
  - apply (NoDup_fmap_2_strong _ (py_range (Z.min n 1) (n + 1)));
      [|apply NoDup_seqZ].
    intros k k' Hk Hk' E. simpl in E. rewrite !key_init_unique_id in E.
    unfold py_range in Hk, Hk'. apply elem_of_seqZ in Hk, Hk'.
    destruct (Z.eqb_spec k 0), (Z.eqb_spec k' 0); try lia.
    now apply append_inv_head, append_inv_head, py_str_inj in E.
  - apply Forall_forall. intros x Hx.
    apply list_elem_of_In, in_map_iff in Hx as (k & <- & _).
    simpl. rewrite key_init_unique_id.
    destruct (k =? 0); [now left | right; eauto].
Qed.

Lemma setup_ids n :
  KEYS_PER_MODEL (model_name (lm c)) = Some n ->
  0 <= n ->
  exists entities,
    async_setup_entry KEYS_PER_MODEL base_unique_id c = Returned entities
    /\ NoDup (map entity_unique_id entities).
Proof.
  intros Hn Hpos. eexists. split; [apply (setup_shape _ _ c n Hn)|].
  rewrite map_app, map_map.
  rewrite (map_filter_supported c
             (fun d => entity_unique_id
                         (PlainNumber
                            (LaMarzoccoEntity_init base_unique_id c d)))).
  rewrite !map_app.
  set (plain := fun d : LaMarzoccoNumberEntityDescription =>
                  (key d, if supported d c then [prefix +:+ key d] else [])).
  set (keyed := fun d : LaMarzoccoKeyNumberEntityDescription =>
                  (key d,
                   map entity_unique_id (key_block base_unique_id c d n))).
  match goal with
  | |- NoDup ?l =>
      replace l
        with (concat (map snd (map plain ENTITIES ++ map keyed KEY_ENTITIES)))
  end.
  2:{ rewrite map_app, concat_app, !map_map. f_equal.
      - f_equal. apply map_ext. intros d. unfold plain. simpl.
        now rewrite base_format.
      - unfold KEY_ENTITIES, keyed. simpl. now rewrite app_nil_r. }
  apply (NoDup_concat_tagged prefix
           (map plain ENTITIES ++ map keyed KEY_ENTITIES)).
  - intros t L Hp. apply elem_of_app in Hp as [Hp|Hp];
      apply list_elem_of_In, in_map_iff in Hp as (d & E & Hd);
      injection E as <- <-.
    + split; [|split].
      * unfold all_keys. apply elem_of_app. left.
        apply list_elem_of_In, in_map. exact Hd.
      * destruct (supported d c); [apply NoDup_singleton | constructor].
      * destruct (supported d c); repeat constructor.
    + split.
      * unfold all_keys. apply elem_of_app. right.
        apply list_elem_of_In, in_map. exact Hd.
      * now apply block_ids.
  - rewrite map_app, !map_map. apply (bool_decide_unpack _).
    vm_compute. exact I.
Qed.

End Identities.

(** X13.  If the base class builds an entity's identity as a fixed prefix
    followed by the description's key, then, where the table gives
    [n >= 0] keys, no two entities the setup hands over have the same
    identity. *)
Theorem X13_setup_identities_distinct
    (KEYS_PER_MODEL : LaMarzoccoModel -> option Z)
    (base_unique_id : LaMarzoccoUpdateCoordinator -> string -> string)
    (c : LaMarzoccoUpdateCoordinator) (prefix : string) (n : Z) :
  (forall k, base_unique_id c k = prefix +:+ k) ->
  KEYS_PER_MODEL (model_name (lm c)) = Some n ->
  0 <= n ->
  exists entities,
    async_setup_entry KEYS_PER_MODEL base_unique_id c = Returned entities
    /\ NoDup (map entity_unique_id entities).
Proof.
  intros Hf Hn Hpos.
  exact (setup_ids KEYS_PER_MODEL base_unique_id c prefix Hf n Hn Hpos).
Qed.

Lemma X13_setup_identities_distinct_witness :
  exists entities,
    async_setup_entry (fun _ => Some 4) (fun _ k => "LM012345_" +:+ k)
      {| lm := stub_client GS3_AV ∅ |} = Returned entities
    /\ NoDup (map entity_unique_id entities).
Proof.
  apply (X13_setup_identities_distinct (fun _ => Some 4)
           (fun _ k => "LM012345_" +:+ k) {| lm := stub_client GS3_AV ∅ |}
           "LM012345_" 4).
  - reflexivity.
  - reflexivity.
  - lia.
Defined.

(** ** The result of the client call *)

(** X14.  The wrappers drop the boolean the client returns.  On a client
    that never raises, whatever it returns, setting a value on an entity
    of either table either fails before the call, leaving the world
    untouched, or returns normally and writes the state after the one
    call: a [False] from the client is never turned into an error. *)
Theorem X14_false_from_client_is_dropped (e : NumberEntity) (v : pyval)
    (w : World) :
  described_in_tables e ->
  (forall call st, exists b st',
     sdk (lm (coordinator w)) call st = (Returned b, st')) ->
  (exists x, entity_async_set_native_value e v w = (Raised x, w))
  \/ (exists call,
        fst (entity_async_set_native_value e v w) = Returned tt
        /\ events (snd (entity_async_set_native_value e v w))
           = events w ++ [SdkCalled call;
                          StateWritten (entity_unique_id e)]).
Proof.
  intros Ht Hsdk. rewrite entity_async_set_native_value_unfold. unfold bind.
  destruct (single_call_entity e v Ht w) as [(x & E)|(call & E)]; rewrite E.
  - left. now exists x.
  - right. exists call. unfold await_sdk.
    destruct (Hsdk call (current_status (lm (coordinator w))))
      as (b & st' & Hc).
    rewrite Hc. simpl. split; [reflexivity|]. now rewrite <- app_assoc.
Qed.

Lemma X14_false_from_client_is_dropped_witness :
  (exists x,
     entity_async_set_native_value
       (coffee_temp_entity {| lm := refusing_client |}) (VFloat 93.5)
       (start refusing_client)
     = (Raised x, start refusing_client))
  \/ (exists call,
        fst (entity_async_set_native_value
               (coffee_temp_entity {| lm := refusing_client |})
               (VFloat 93.5) (start refusing_client)) = Returned tt
        /\ events (snd (entity_async_set_native_value
                          (coffee_temp_entity {| lm := refusing_client |})
                          (VFloat 93.5) (start refusing_client)))
           = events (start refusing_client)
             ++ [SdkCalled call;
                 StateWritten
                   (entity_unique_id
                      (coffee_temp_entity {| lm := refusing_client |}))]).
Proof.
  apply (X14_false_from_client_is_dropped
           (coffee_temp_entity {| lm := refusing_client |}) (VFloat 93.5)
           (start refusing_client)).
  - simpl. apply elem_of_cons. now left.
  - intros call st. exists false, st. reflexivity.
Defined.
